(** * flottbot: script execution handler and Slack remote

    A shallow embedding of [handlers/script.go] (ScriptExec) and of
    [remote/slack/remote.go] (Reaction, Read, Send, InteractiveComponents),
    with the properties of their results and effects.

    Go strings are byte strings ([string]); Go [int] values that matter here
    stay far from the 64-bit bounds and are modelled in [Z], with the one
    multiplication that can wrap written out.  Calls that leave the
    repository (the operating system, the Slack API, the clock) are
    parameters of the sections below; the effects a function performs are
    returned as a list of events, in program order. *)

From Stdlib Require Import ZArith Ascii String List Lia Bool.
From stdpp Require Import base option strings gmap.

Import ListNotations.
Local Open Scope string_scope.
Local Open Scope list_scope.
Local Open Scope Z_scope.

(** ** Go's [strings] package: the functions the code calls *)

Module strings.

(** [strings.ContainsRune] restricted to single-byte runes. *)
Fixpoint ContainsByte (cutset : string) (c : ascii) : bool :=
  match cutset with
  | EmptyString => false
  | String d rest => if Ascii.eqb c d then true else ContainsByte rest c
  end.

Fixpoint TrimLeft (s cutset : string) : string :=
  match s with
  | EmptyString => EmptyString
  | String c rest => if ContainsByte cutset c then TrimLeft rest cutset else s
  end.

Fixpoint TrimRight (s cutset : string) : string :=
  match s with
  | EmptyString => EmptyString
  | String c rest =>
      match TrimRight rest cutset with
      | EmptyString => if ContainsByte cutset c then EmptyString
                       else String c EmptyString
      | kept => String c kept
      end
  end.

(** [strings.Trim(s, cutset)]: all leading and trailing bytes of [s] that
    occur in [cutset] removed. *)
Definition Trim (s cutset : string) : string :=
  TrimRight (TrimLeft s cutset) cutset.

(** First and last byte of a string, [None] when it is empty. *)
Definition first (s : string) : option ascii :=
  match s with EmptyString => None | String c _ => Some c end.

Fixpoint last (s : string) : option ascii :=
  match s with
  | EmptyString => None
  | String c rest => match last rest with None => Some c | found => found end
  end.

(** A string is trimmed for [cutset] when neither end is in [cutset]. *)
Definition Trimmed (s cutset : string) : Prop :=
  (forall c, first s = Some c -> ContainsByte cutset c = false) /\
  (forall c, last s = Some c -> ContainsByte cutset c = false).

(** [len(s) == 0] *)
Definition isEmpty (s : string) : bool :=
  match s with EmptyString => true | String _ _ => false end.

(** [s[:n]] for [n <= len(s)] (Go panics beyond that). *)
Definition prefix (n : nat) (s : string) : string := String.substring 0 n s.

End strings.

(** The double quote, for texts that contain one. *)
Definition dq : string := String "034"%char EmptyString.

(** The cutset [" \n"] of every [strings.Trim] call in [ScriptExec]. *)
Definition space_newline : string := String " "%char (String "010"%char EmptyString).

(** ** Errors

    The dynamic types of the [error] values that reach [ScriptExec]'s type
    switch, each with the text its [Error()] method returns. *)

Inductive error : Type :=
| ExitError (ws : Z) (Stderr : string) (text : string)
(** [*exec.ExitError]: the process ran and did not succeed *)
| PathError (text : string)
(** [*os.PathError]: starting the file at a given path failed *)
| ExecError (text : string)
(** [*exec.Error]: [exec.LookPath] found no executable for a bare name *)
| errorString (text : string).
(** any other error ([errors.New], [fmt.Errorf]) *)

Definition Error (e : error) : string :=
  match e with
  | ExitError _ _ text => text
  | PathError text => text
  | ExecError text => text
  | errorString text => text
  end.

(** ** [syscall.WaitStatus] (Linux) *)

Module syscall.

Definition mask : Z := 0x7F.
Definition exited : Z := 0x00.
Definition shift : Z := 8.

(** [func (w WaitStatus) Exited() bool { return w&mask == exited }] *)
Definition Exited (w : Z) : bool := Z.land w mask =? exited.

(** [ExitStatus]: the exit code of a process that exited, [-1] for one
    that did not (killed by a signal, stopped). *)
Definition ExitStatus (w : Z) : Z :=
  if Exited w then Z.land (Z.shiftr w shift) 0xFF else -1.

End syscall.

(** ** The data model ([models]) *)

Module Action.
Record t : Type := { Name : string; Cmd : string; Timeout : Z }.
End Action.

Module ScriptResponse.
Record t : Type := { Status : Z; Output : string }.
End ScriptResponse.

(** Modelled from the spec: [models.MessageType], declared in [models]
    and not in the two files embedded here; the three kinds of message the
    spec lists, and the zero value of the type for a message that has none
    of them. *)
Inductive MessageType : Type :=
| MsgTypeUnknown
| MsgTypeDirect
| MsgTypeChannel
| MsgTypePrivateChannel.

Module Message.
Record t : Type := {
  ID : string;
  ChannelID : string;
  Timestamp : string;
  Type_ : MessageType;
  Output : string;
  Vars : gmap string string;
  EndTime : Z
}.
End Message.

Module Rule.
Record t : Type := { Name : string; Reaction : string; RemoveReaction : string }.
End Rule.

(** ** [handlers/script.go] *)

Module handlers.

(** What [cmd.Output()] leaves behind: the captured standard output, the
    error, whether the context's deadline had passed when it returned,
    and the wait status in [cmd.ProcessState]. *)
Record CmdRun : Type := {
  out : string;
  err : option error;
  DeadlineExceeded : bool;
  ProcessState : Z
}.

(** [time.Duration(n) * time.Second] in 64-bit signed arithmetic. *)
Definition wrap64 (z : Z) : Z := (z + 2 ^ 63) mod 2 ^ 64 - 2 ^ 63.
Definition Second : Z := 1000000000.
Definition seconds (n : Z) : Z := wrap64 (n * Second).

(** The default response: exit code 1 (error), nothing printed. *)
Definition defaultResponse : ScriptResponse.t :=
  {| ScriptResponse.Status := 1; ScriptResponse.Output := "" |}.

Definition timeoutOutput : string := "Hmm, something timed out. Please try again.".

Definition timeoutError (name : string) : error :=
  errorString ("timeout reached, exec process for action '" +:+ name +:+ "' cancelled").

Inductive Outcome : Type :=
| SubstitutionFailure | NoCommand | Timeout | LookupFailure | NonZeroExit
| OtherFailure | Success.

Definition isExitError (e : error) : bool :=
  match e with ExitError _ _ _ => true | _ => false end.

Definition isPathError (e : error) : bool :=
  match e with PathError _ => true | _ => false end.

Section ScriptExec.

(** [utils.Substitute], [utils.ExecArgTokenizer] and the run of the
    command under its deadline ([exec.CommandContext] then
    [cmd.Output]): given the deadline, the executable and its
    arguments. *)
Variable Substitute : string -> gmap string string -> string * option error.
Variable ExecArgTokenizer : string -> list string.
Variable Output : Z -> string -> list string -> CmdRun.

(** The type switch on a non-nil [err]: the result after it. *)
Definition onError (e : error) (result : ScriptResponse.t) : ScriptResponse.t :=
  match e with
  | ExitError ws Stderr _ =>
      let stderr := strings.Trim Stderr space_newline in
      {| ScriptResponse.Status := syscall.ExitStatus ws;
         ScriptResponse.Output := stderr |}
  | PathError _ =>
      {| ScriptResponse.Status := 127;
         ScriptResponse.Output := Error e |}
  | _ =>
      {| ScriptResponse.Status := ScriptResponse.Status result;
         ScriptResponse.Output := strings.Trim (Error e) space_newline |}
  end.

(** Lines 49 to 87: what [ScriptExec] returns once [cmd.Output()] has
    returned, from the default [result] (Status 1, empty Output). *)
Definition afterOutput (name : string) (result : ScriptResponse.t) (run : CmdRun)
  : ScriptResponse.t * option error :=
  if DeadlineExceeded run then
    ({| ScriptResponse.Status := ScriptResponse.Status result;
        ScriptResponse.Output := timeoutOutput |},
     Some (timeoutError name))
  else
    match err run with
    | Some e =>
        let result := onError e result in
        let strOut := strings.Trim (out run) space_newline in
        let result :=
          if strings.isEmpty strOut then result
          else {| ScriptResponse.Status := ScriptResponse.Status result;
                  ScriptResponse.Output := strOut |} in
        (result, Some e)
    | None =>
        ({| ScriptResponse.Status := syscall.ExitStatus (ProcessState run);
            ScriptResponse.Output := strings.Trim (out run) space_newline |},
         None)
    end.

(** [ScriptExec]; [None] is the run-time panic of [bin[0]] on an empty
    token list.  The log lines do not bear on what is returned and are
    left out. *)
Definition ScriptExec (args : Action.t) (msg : Message.t)
  : option (ScriptResponse.t * option error) :=
  let Timeout := if Action.Timeout args =? 0 then 20 else Action.Timeout args in
  let result := defaultResponse in
  let '(cmdProcessed, serr) := Substitute (Action.Cmd args) (Message.Vars msg) in
  match serr with
  | Some e => Some (result, Some e)
  | None =>
      match ExecArgTokenizer cmdProcessed with
      | [] => None
      | bin0 :: rest =>
          Some (afterOutput (Action.Name args) result
                  (Output (seconds Timeout) bin0 rest))
      end
  end.

(** The run [ScriptExec] observes for [args] and [msg], when it gets as
    far as running the command. *)
Definition observed (args : Action.t) (msg : Message.t) : option CmdRun :=
  let Timeout := if Action.Timeout args =? 0 then 20 else Action.Timeout args in
  match Substitute (Action.Cmd args) (Message.Vars msg) with
  | (_, Some _) => None
  | (cmdProcessed, None) =>
      match ExecArgTokenizer cmdProcessed with
      | [] => None
      | bin0 :: rest => Some (Output (seconds Timeout) bin0 rest)
      end
  end.

(** The ways a call of [ScriptExec] can go, by the branch it leaves
    through.  [Timeout], [LookupFailure], [NonZeroExit] and [Success]
    are the four of the specification. *)
Definition applies (o : Outcome) (args : Action.t) (msg : Message.t) : Prop :=
  match o with
  | SubstitutionFailure =>
      exists e, snd (Substitute (Action.Cmd args) (Message.Vars msg)) = Some e
  | NoCommand =>
      snd (Substitute (Action.Cmd args) (Message.Vars msg)) = None /\
      ExecArgTokenizer (fst (Substitute (Action.Cmd args) (Message.Vars msg))) = []
  | Timeout =>
      exists run, observed args msg = Some run /\ DeadlineExceeded run = true
  | LookupFailure =>
      exists run text, observed args msg = Some run /\ DeadlineExceeded run = false /\
                       err run = Some (PathError text)
  | NonZeroExit =>
      exists run ws Stderr text,
        observed args msg = Some run /\ DeadlineExceeded run = false /\
        err run = Some (ExitError ws Stderr text)
  | OtherFailure =>
      exists run e, observed args msg = Some run /\ DeadlineExceeded run = false /\
                    err run = Some e /\ isExitError e = false /\ isPathError e = false
  | Success =>
      exists run, observed args msg = Some run /\ DeadlineExceeded run = false /\
                  err run = None
  end.

End ScriptExec.

(** The four outcomes the specification lists. *)
Definition listed (o : Outcome) : bool :=
  match o with
  | Timeout | LookupFailure | NonZeroExit | Success => true
  | _ => false
  end.

(** The Output that the specification describes after a non-zero exit:
    the trimmed standard output if there is any, else the trimmed
    standard error if there is any, else the text of the error. *)
Definition described_output (stdout Stderr text : string) : string :=
  let strOut := strings.Trim stdout space_newline in
  if strings.isEmpty strOut then
    if strings.isEmpty Stderr then text else strings.Trim Stderr space_newline
  else strOut.

End handlers.

(** ** [remote/slack/remote.go] *)

Module slack.

Record Client : Type := {
  ListenerPort : string;
  Token : string;
  AppToken : string;
  SigningSecret : string
}.

(** The fields of [models.Bot] that the remote reads or writes. *)
Record Bot : Type := {
  ID : string;
  Rooms : gmap string string;
  SlackToken : string;
  Debug : bool;
  CLI : bool;
  InteractiveComponents_ : bool;
  SlackInteractionsCallbackPath : string
}.

(** [slack.NewRefToMessage(channel, timestamp)] *)
Record ItemRef : Type := { Channel : string; Timestamp : string }.

Definition NewRefToMessage (channel timestamp : string) : ItemRef :=
  {| Channel := channel; Timestamp := timestamp |}.

Inductive Level : Type := DebugLevel | InfoLevel | WarnLevel | ErrorLevel.

(** The two handlers the interaction router is given. *)
Inductive Handler : Type :=
| HealthHandler
| RuleHandler (signingSecret : string) (message : Message.t) (rule : Rule.t).

Record Route : Type := { path : string; handler : Handler; methods : list string }.

(** A [*mux.Router] is the list of its routes, in registration order. *)
Definition Router : Type := list Route.

(** [sm := slack.New(bot.SlackToken, OptionDebug, OptionAppLevelToken, OptionLog)] *)
Record SocketClient : Type := {
  smToken : string;
  smDebug : bool;
  smAppLevelToken : string
}.

(** What a function does besides returning, one event per call that
    leaves it, in program order. *)
Inductive Event : Type :=
| Log (level : Level) (text : string)
| CallRemoveReaction (token name : string) (item : ItemRef)
| CallAddReaction (token name : string) (item : ItemRef)
| CallGetRooms (token : string)
| CallAuthTest (token : string)
| CallReadFromSocketMode (sm : SocketClient) (bot : Bot)
| CallReadFromEventsAPI (token signingSecret : string) (bot : Bot)
| CallSend (token : string) (message : Message.t)
| CallProcessInteractiveComponentRule (rule : Rule.t) (message : Message.t)
| GoListenAndServe (addr : string).

(** The package-level state: the variable [interactionsRouter] ([None] is
    the nil pointer) and the addresses the process has started
    [http.ListenAndServe] on. *)
Record Package : Type := {
  interactionsRouter : option Router;
  listeners : list string
}.

Definition initial : Package := {| interactionsRouter := None; listeners := [] |}.

Section Remote.

(** The Slack service behind [api]: its state, and the calls made on it
    with the client's token.  [getRooms] is the package's own helper. *)
Variable Slack : Type.
Variable RemoveReaction : string -> string -> ItemRef -> Slack -> option error * Slack.
Variable AddReaction : string -> string -> ItemRef -> Slack -> option error * Slack.
Variable getRooms : string -> Slack -> gmap string string.
Variable AuthTest : string -> Slack -> string + error.

(** The two transports of the package: the messages they put on
    [inputMsgs] and the bot as they leave it. *)
Variable readFromSocketMode : SocketClient -> Bot -> Bot * list Message.t.
Variable readFromEventsAPI : string -> string -> Bot -> Bot * list Message.t.

(** [slack.MaxMessageTextLength], [models.MessageTimestamp()] and the
    package's [isValidPath]. *)
Variable MaxMessageTextLength : Z.
Variable MessageTimestamp : Z.
Variable isValidPath : string -> bool.

(** Lines 50 to 61: the second half of [Reaction]. *)
Definition addReaction (c : Client) (message : Message.t) (rule : Rule.t)
    (s : Slack) : list Event * Slack :=
  if strings.isEmpty (Rule.Reaction rule) then ([], s)
  else
    let msgRef := NewRefToMessage (Message.ChannelID message) (Message.Timestamp message) in
    let call := CallAddReaction (Token c) (Rule.Reaction rule) msgRef in
    match AddReaction (Token c) (Rule.Reaction rule) msgRef s with
    | (Some e, s') =>
        ([call; Log ErrorLevel ("could not add reaction: " +:+ Error e)], s')
    | (None, s') =>
        ([call; Log InfoLevel ("added reaction '" +:+ Rule.Reaction rule +:+
                               "' for rule '" +:+ Rule.Name rule +:+ "'")], s')
    end.

(** [Reaction]: it returns nothing; its effects and the service after it. *)
Definition Reaction (c : Client) (message : Message.t) (rule : Rule.t)
    (s : Slack) : list Event * Slack :=
  if strings.isEmpty (Rule.RemoveReaction rule) then addReaction c message rule s
  else
    let msgRef := NewRefToMessage (Message.ChannelID message) (Message.Timestamp message) in
    let call := CallRemoveReaction (Token c) (Rule.RemoveReaction rule) msgRef in
    match RemoveReaction (Token c) (Rule.RemoveReaction rule) msgRef s with
    | (Some e, s') =>
        ([call; Log ErrorLevel ("could not add reaction: " +:+ Error e)], s')
    | (None, s') =>
        let '(evs, s'') := addReaction c message rule s' in
        (call :: Log InfoLevel ("removed reaction '" +:+ Rule.RemoveReaction rule +:+
                                "' for rule '" +:+ Rule.Name rule +:+ "'") :: evs, s'')
    end.

(** What [Read] leaves: the bot, the messages written to [inputMsgs]
    and the events. *)
Record ReadResult : Type := {
  bot_after : Bot;
  written : list Message.t;
  events : list Event
}.

Definition setRooms (rooms : gmap string string) (bot : Bot) : Bot :=
  {| ID := ID bot; Rooms := rooms; SlackToken := SlackToken bot; Debug := Debug bot;
     CLI := CLI bot; InteractiveComponents_ := InteractiveComponents_ bot;
     SlackInteractionsCallbackPath := SlackInteractionsCallbackPath bot |}.

Definition setID (id : string) (bot : Bot) : Bot :=
  {| ID := id; Rooms := Rooms bot; SlackToken := SlackToken bot; Debug := Debug bot;
     CLI := CLI bot; InteractiveComponents_ := InteractiveComponents_ bot;
     SlackInteractionsCallbackPath := SlackInteractionsCallbackPath bot |}.

(** Lines 104 to 108: the closing check of [Read]. *)
Definition notConfigured (c : Client) (bot : Bot) : list Event :=
  if strings.isEmpty (AppToken c) && strings.isEmpty (SigningSecret c) && negb (CLI bot)
  then [Log ErrorLevel "cli mode is disabled and tokens are not set up correctly to run the bot"]
  else [].

Definition Read (c : Client) (bot : Bot) (s : Slack) : ReadResult :=
  let bot := setRooms (getRooms (Token c) s) bot in
  let pre := [CallGetRooms (Token c); CallAuthTest (Token c)] in
  match AuthTest (Token c) s with
  | inr _ =>
      {| bot_after := bot; written := [];
         events := pre ++ [Log ErrorLevel "the 'slack_token' that was provided was invalid or is unauthorized - closing slack message reader"] |}
  | inl UserID =>
      let bot := setID UserID bot in
      if negb (strings.isEmpty (AppToken c)) then
        let sm := {| smToken := SlackToken bot; smDebug := Debug bot;
                     smAppLevelToken := AppToken c |} in
        let '(bot', msgs) := readFromSocketMode sm bot in
        {| bot_after := bot'; written := msgs;
           events := pre ++ [CallReadFromSocketMode sm bot] ++ notConfigured c bot' |}
      else if negb (strings.isEmpty (SigningSecret c)) then
        let '(bot', msgs) := readFromEventsAPI (Token c) (SigningSecret c) bot in
        {| bot_after := bot'; written := msgs;
           events := pre ++ [CallReadFromEventsAPI (Token c) (SigningSecret c) bot]
                         ++ notConfigured c bot' |}
      else
        {| bot_after := bot; written := []; events := pre ++ notConfigured c bot |}
  end.

Definition setOutput (output : string) (m : Message.t) : Message.t :=
  {| Message.ID := Message.ID m; Message.ChannelID := Message.ChannelID m;
     Message.Timestamp := Message.Timestamp m; Message.Type_ := Message.Type_ m;
     Message.Output := output; Message.Vars := Message.Vars m;
     Message.EndTime := Message.EndTime m |}.

Definition setEndTime (t : Z) (m : Message.t) : Message.t :=
  {| Message.ID := Message.ID m; Message.ChannelID := Message.ChannelID m;
     Message.Timestamp := Message.Timestamp m; Message.Type_ := Message.Type_ m;
     Message.Output := Message.Output m; Message.Vars := Message.Vars m;
     Message.EndTime := t |}.

(** Lines 117 to 122: the size check of [Send]. *)
Definition truncate (output : string) : string :=
  if Z.of_nat (String.length output) >? MaxMessageTextLength then
    strings.prefix (Z.to_nat (MaxMessageTextLength - 3)) output +:+ "..."
  else output.

Definition Send (c : Client) (message : Message.t) : list Event :=
  let message := setOutput (truncate (Message.Output message)) message in
  let message := setEndTime MessageTimestamp message in
  Log DebugLevel ("sending message '" +:+ Message.ID message +:+ "'") ::
  match Message.Type_ message with
  | MsgTypeDirect | MsgTypeChannel | MsgTypePrivateChannel =>
      [CallSend (Token c) message]
  | _ => [Log WarnLevel "received unknown message type - no message to send"]
  end.

Definition setRouter (r : Router) (p : Package) : Package :=
  {| interactionsRouter := Some r; listeners := listeners p |}.

Definition listen (addr : string) (p : Package) : Package :=
  {| interactionsRouter := interactionsRouter p; listeners := listeners p ++ [addr] |}.

(** [router.HandleFunc(path, handler).Methods(method)] *)
Definition HandleFunc (p : string) (h : Handler) (method : string) (r : Router) : Router :=
  r ++ [{| path := p; handler := h; methods := [method] |}].

Definition InteractiveComponents (c : Client) (message : Message.t) (rule : Rule.t)
    (bot : Bot) (p : Package) : Package * list Event :=
  if InteractiveComponents_ bot && negb (strings.isEmpty (SigningSecret c)) then
    if strings.isEmpty (SlackInteractionsCallbackPath bot) then
      (p, [Log ErrorLevel ("need to specify a callback path for the 'slack_interactions_callback_path' field in the bot.yml (e.g. " +:+ dq +:+ "/slack_events/v1/mybot_dev-v1_interactions" +:+ dq +:+ ")");
           Log WarnLevel "closing interactions reader (will not be able to read interactive components)"])
    else
      match interactionsRouter p with
      | None =>
          let router := HandleFunc "/interaction_health" HealthHandler "GET" [] in
          let ruleHandle := RuleHandler (SigningSecret c) message rule in
          if negb (isValidPath (SlackInteractionsCallbackPath bot)) then
            (setRouter router p,
             [Log ErrorLevel ("invalid events path - please double check your path value/syntax (e.g. " +:+ dq +:+ "/slack_events/v1/mybot_dev-v1_interactions" +:+ dq +:+ ")");
              Log WarnLevel "closing interaction components reader (will not be able to read interactive components)"])
          else
            let router := HandleFunc (SlackInteractionsCallbackPath bot) ruleHandle "POST" router in
            (listen ":4000" (setRouter router p),
             [GoListenAndServe ":4000";
              Log InfoLevel ("slack interactive components server is listening to '" +:+
                             SlackInteractionsCallbackPath bot +:+ "'");
              CallProcessInteractiveComponentRule rule message])
      | Some _ =>
          (p, [CallProcessInteractiveComponentRule rule message])
      end
  else (p, []).

End Remote.

End slack.

(** ** A small machine to run the functions on

    Concrete collaborators: a substitution that changes nothing, one that
    fails, a tokenizer for commands without arguments, and an operating
    system that knows a handful of commands. *)

Module sample.

Definition nl : string := String "010"%char EmptyString.

Definition noSubstitution (cmd : string) (_ : gmap string string)
  : string * option error := (cmd, None).

Definition failingSubstitution (cmd : string) (_ : gmap string string)
  : string * option error := (cmd, Some (errorString "variable 'name' was not found")).

Definition oneToken (cmd : string) : list string :=
  if strings.isEmpty cmd then [] else [cmd].

Definition notOnPath : string :=
  "exec: " +:+ dq +:+ "nosuchbinary" +:+ dq +:+ ": executable file not found in $PATH".

Definition noSuchFile : string :=
  "fork/exec /no/such/binary: no such file or directory".

Definition run (out : string) (err : option error) (late : bool) (ws : Z)
  : handlers.CmdRun :=
  {| handlers.out := out; handlers.err := err;
     handlers.DeadlineExceeded := late; handlers.ProcessState := ws |}.

(** [hello] prints a line and exits 0; [sleep] outlives every deadline
    and is killed; [false] exits 1 in silence; [fail] exits 2 with a line
    on standard error; [half] prints, then exits 3 with a line on
    standard error; [crash] is killed by signal 11. *)
Definition machine (deadline : Z) (bin0 : string) (argv : list string)
  : handlers.CmdRun :=
  if String.eqb bin0 "hello" then run ("hello" +:+ nl) None false 0
  else if String.eqb bin0 "sleep" then
    run "" (Some (ExitError 9 "" "signal: killed")) true 9
  else if String.eqb bin0 "false" then
    run "" (Some (ExitError 256 "" "exit status 1")) false 256
  else if String.eqb bin0 "fail" then
    run "" (Some (ExitError 512 (" no such rule" +:+ nl) "exit status 2")) false 512
  else if String.eqb bin0 "half" then
    run ("partial" +:+ nl) (Some (ExitError 768 ("then it broke" +:+ nl) "exit status 3"))
        false 768
  else if String.eqb bin0 "crash" then
    run "" (Some (ExitError 11 "" "signal: segmentation fault")) false 11
  else if String.eqb bin0 "/no/such/binary" then
    run "" (Some (PathError noSuchFile)) false 0
  else run "" (Some (ExecError notOnPath)) false 0.

Definition action (cmd : string) (timeout : Z) : Action.t :=
  {| Action.Name := "demo"; Action.Cmd := cmd; Action.Timeout := timeout |}.

Definition message : Message.t :=
  {| Message.ID := "m1"; Message.ChannelID := "C024BE91L";
     Message.Timestamp := "1355517523.000005"; Message.Type_ := MsgTypeChannel;
     Message.Output := "done"; Message.Vars := ∅; Message.EndTime := 0 |}.

Definition ScriptExec : Action.t -> Message.t -> option (ScriptResponse.t * option error) :=
  handlers.ScriptExec noSubstitution oneToken machine.

(** A Slack service: the reactions on each message, as (channel,
    timestamp, name) triples; one valid token. *)
Definition Service : Type := list (string * string * string).

Definition same (name : string) (item : slack.ItemRef) (r : string * string * string)
  : bool :=
  String.eqb (fst (fst r)) (slack.Channel item) &&
  String.eqb (snd (fst r)) (slack.Timestamp item) &&
  String.eqb (snd r) name.

Definition RemoveReaction (token name : string) (item : slack.ItemRef) (s : Service)
  : option error * Service :=
  if existsb (same name item) s
  then (None, filter (fun r => negb (same name item r)) s)
  else (Some (errorString "no_reaction"), s).

Definition AddReaction (token name : string) (item : slack.ItemRef) (s : Service)
  : option error * Service :=
  if existsb (same name item) s
  then (Some (errorString "already_reacted"), s)
  else (None, (slack.Channel item, slack.Timestamp item, name) :: s).

Definition getRooms (token : string) (s : Service) : gmap string string :=
  {[ "general" := "C024BE91L" ]}.

Definition AuthTest (token : string) (s : Service) : string + error :=
  if String.eqb token "xoxb-valid" then inl "U061F7AUR"
  else inr (errorString "invalid_auth").

Definition readFromSocketMode (sm : slack.SocketClient) (bot : slack.Bot)
  : slack.Bot * list Message.t := (bot, [message]).

Definition readFromEventsAPI (token signingSecret : string) (bot : slack.Bot)
  : slack.Bot * list Message.t := (bot, []).

Definition isValidPath (p : string) : bool :=
  match p with String "/" _ => true | _ => false end.

Definition client (token : string) : slack.Client :=
  {| slack.ListenerPort := "3000"; slack.Token := token;
     slack.AppToken := "xapp-1"; slack.SigningSecret := "8f742231b10e" |}.

Definition bot : slack.Bot :=
  {| slack.ID := ""; slack.Rooms := ∅; slack.SlackToken := "xoxb-valid";
     slack.Debug := false; slack.CLI := false; slack.InteractiveComponents_ := true;
     slack.SlackInteractionsCallbackPath := "/slack_events/v1/mybot_dev-v1_interactions" |}.

Definition rule (remove add : string) : Rule.t :=
  {| Rule.Name := "ack"; Rule.Reaction := add; Rule.RemoveReaction := remove |}.

Fixpoint filler (n : nat) : string :=
  match n with O => EmptyString | S m => String "a" (filler m) end.

Definition typed (t : MessageType) (output : string) : Message.t :=
  {| Message.ID := "m2"; Message.ChannelID := "C024BE91L";
     Message.Timestamp := "1355517523.000005"; Message.Type_ := t;
     Message.Output := output; Message.Vars := ∅; Message.EndTime := 0 |}.

Definition Reaction : slack.Client -> Message.t -> Rule.t -> Service ->
                      list slack.Event * Service :=
  slack.Reaction Service RemoveReaction AddReaction.

Definition Read : slack.Client -> slack.Bot -> Service -> slack.ReadResult :=
  slack.Read Service getRooms AuthTest readFromSocketMode readFromEventsAPI.

Definition Send : slack.Client -> Message.t -> list slack.Event :=
  slack.Send 4000 1700000000.

Definition InteractiveComponents : slack.Client -> Message.t -> Rule.t -> slack.Bot ->
                                   slack.Package -> slack.Package * list slack.Event :=
  slack.InteractiveComponents isValidPath.

End sample.

(** ** Sequences of activations, and the calls among the events *)

Module runs.

(** The Slack API calls among the events of [Reaction]. *)
Definition isApiCall (e : slack.Event) : bool :=
  match e with
  | slack.CallRemoveReaction _ _ _ | slack.CallAddReaction _ _ _ => true
  | _ => false
  end.

Definition apiCalls (evs : list slack.Event) : list slack.Event := filter isApiCall evs.

(** The arguments of one call of [InteractiveComponents]. *)
Record Activation : Type := {
  client : slack.Client;
  message : Message.t;
  rule : Rule.t;
  bot : slack.Bot
}.

Definition activate (isValidPath : string -> bool) (a : Activation) (p : slack.Package)
  : slack.Package * list slack.Event :=
  slack.InteractiveComponents isValidPath (client a) (message a) (rule a) (bot a) p.

(** One call after the other, on the package state the one before left. *)
Fixpoint activations (isValidPath : string -> bool) (calls : list Activation)
    (p : slack.Package) : slack.Package * list slack.Event :=
  match calls with
  | [] => (p, [])
  | a :: rest =>
      let '(p1, evs1) := activate isValidPath a p in
      let '(p2, evs2) := activations isValidPath rest p1 in
      (p2, evs1 ++ evs2)
  end.

Definition healthRoute : slack.Route :=
  {| slack.path := "/interaction_health"; slack.handler := slack.HealthHandler;
     slack.methods := ["GET"] |}.

(** The package states [InteractiveComponents] can leave: nothing built;
    the health route alone and nothing listening; the health route, one
    callback route and the one listener. *)
Definition reachable (p : slack.Package) : Prop :=
  (slack.interactionsRouter p = None /\ slack.listeners p = []) \/
  (slack.interactionsRouter p = Some [healthRoute] /\ slack.listeners p = []) \/
  (exists callback,
     slack.interactionsRouter p = Some [healthRoute; callback] /\
     slack.methods callback = ["POST"] /\
     slack.listeners p = [":4000"]).

(** A bot whose callback path does not pass [sample.isValidPath]. *)
Definition badPathBot : slack.Bot :=
  {| slack.ID := ""; slack.Rooms := ∅; slack.SlackToken := "xoxb-valid";
     slack.Debug := false; slack.CLI := false; slack.InteractiveComponents_ := true;
     slack.SlackInteractionsCallbackPath := "slack_events" |}.

Definition first : Activation :=
  {| client := sample.client "xoxb-valid"; message := sample.message;
     rule := sample.rule "" "eyes"; bot := sample.bot |}.

Definition firstBadPath : Activation :=
  {| client := sample.client "xoxb-valid"; message := sample.message;
     rule := sample.rule "" "eyes"; bot := badPathBot |}.

End runs.

(** ** The result of each outcome, and white space *)

Module outcome.

(** The bytes that count as white space (Go's [unicode.IsSpace] on
    ASCII): tab, newline, vertical tab, form feed, carriage return and
    space. *)
Definition whitespace : string :=
  String "009"%char (String "010"%char (String "011"%char
    (String "012"%char (String "013"%char (String " "%char EmptyString))))).

(** The Output that the specification describes after a success: the
    standard output with the white space around it trimmed. *)
Definition described_success_output (stdout : string) : string :=
  strings.Trim stdout whitespace.

(** An operating system whose every command prints a tab, "hi", a
    carriage return and a newline, and exits 0. *)
Definition tabbed (deadline : Z) (bin0 : string) (argv : list string)
  : handlers.CmdRun :=
  sample.run (String "009"%char "hi" +:+ String "013"%char sample.nl) None false 0.

Section Returns.

Variable Substitute : string -> gmap string string -> string * option error.
Variable ExecArgTokenizer : string -> list string.
Variable Output : Z -> string -> list string -> handlers.CmdRun.

(** What [ScriptExec] hands back in each outcome: [res] is its result,
    [None] for the panic. *)
Definition returns (o : handlers.Outcome) (args : Action.t) (msg : Message.t)
    (res : option (ScriptResponse.t * option error)) : Prop :=
  let observed := handlers.observed Substitute ExecArgTokenizer Output args msg in
  let printed run := strings.Trim (handlers.out run) space_newline in
  match o with
  | handlers.SubstitutionFailure =>
      exists e, snd (Substitute (Action.Cmd args) (Message.Vars msg)) = Some e /\
                res = Some ({| ScriptResponse.Status := 1; ScriptResponse.Output := "" |},
                            Some e)
  | handlers.NoCommand => res = None
  | handlers.Timeout =>
      res = Some ({| ScriptResponse.Status := 1;
                     ScriptResponse.Output := handlers.timeoutOutput |},
                  Some (handlers.timeoutError (Action.Name args)))
  | handlers.LookupFailure =>
      exists run text,
        observed = Some run /\ handlers.err run = Some (PathError text) /\
        res = Some ({| ScriptResponse.Status := 127;
                       ScriptResponse.Output :=
                         if strings.isEmpty (printed run) then text else printed run |},
                    Some (PathError text))
  | handlers.NonZeroExit =>
      exists run ws Stderr text,
        observed = Some run /\ handlers.err run = Some (ExitError ws Stderr text) /\
        res = Some ({| ScriptResponse.Status := syscall.ExitStatus ws;
                       ScriptResponse.Output :=
                         if strings.isEmpty (printed run)
                         then strings.Trim Stderr space_newline else printed run |},
                    Some (ExitError ws Stderr text))
  | handlers.OtherFailure =>
      exists run e,
        observed = Some run /\ handlers.err run = Some e /\
        res = Some ({| ScriptResponse.Status := 1;
                       ScriptResponse.Output :=
                         if strings.isEmpty (printed run)
                         then strings.Trim (Error e) space_newline else printed run |},
                    Some e)
  | handlers.Success =>
      exists run,
        observed = Some run /\
        res = Some ({| ScriptResponse.Status :=
                         syscall.ExitStatus (handlers.ProcessState run);
                       ScriptResponse.Output := printed run |},
                    None)
  end.

End Returns.

End outcome.

(** * Properties *)

(** ** Trimming *)

Lemma TrimLeft_first (s cutset : string) (c : ascii) :
  strings.first (strings.TrimLeft s cutset) = Some c ->
  strings.ContainsByte cutset c = false.
Proof.
  induction s as [|a rest IH]; simpl; [discriminate|].
  destruct (strings.ContainsByte cutset a) eqn:Ha; [exact IH|].
  simpl; intros [= <-]; exact Ha.
Qed.

Lemma TrimRight_first (s cutset : string) (c : ascii) :
  strings.first (strings.TrimRight s cutset) = Some c ->
  strings.first s = Some c.
Proof.
  destruct s as [|a rest]; simpl; [discriminate|].
  destruct (strings.TrimRight rest cutset); [|simpl; tauto].
  destruct (strings.ContainsByte cutset a); simpl; [discriminate|tauto].
Qed.

Lemma TrimRight_last (s cutset : string) (c : ascii) :
  strings.last (strings.TrimRight s cutset) = Some c ->
  strings.ContainsByte cutset c = false.
Proof.
  revert c; induction s as [|a rest IH]; simpl; intros c; [discriminate|].
  destruct (strings.TrimRight rest cutset) as [|b kept] eqn:Hk.
  - destruct (strings.ContainsByte cutset a) eqn:Ha; simpl; [discriminate|].
    intros [= <-]; exact Ha.
  - change (strings.last (String a (String b kept)))
      with (match strings.last (String b kept) with
            | None => Some a | found => found end).
    destruct (strings.last (String b kept)) as [d|] eqn:Hl.
    + intros [= <-]; apply IH; reflexivity.
    + simpl in Hl; destruct (strings.last kept); discriminate.
Qed.

Lemma Trim_Trimmed (s cutset : string) :
  strings.Trimmed (strings.Trim s cutset) cutset.
Proof.
  split; intros c Hc.
  - apply (TrimLeft_first s); apply (TrimRight_first _ cutset); exact Hc.
  - apply (TrimRight_last (strings.TrimLeft s cutset)); exact Hc.
Qed.

Lemma Trimmed_empty (cutset : string) : strings.Trimmed "" cutset.
Proof. split; intros c; simpl; discriminate. Qed.

Lemma timeoutOutput_Trimmed : strings.Trimmed handlers.timeoutOutput space_newline.
Proof. split; intros c; vm_compute; intros [= <-]; reflexivity. Qed.

(** ** Wait statuses *)

Lemma land_byte (x : Z) : Z.land x 0xFF = x mod 256.
Proof. change 0xFF with (Z.ones 8); rewrite Z.land_ones by lia; reflexivity. Qed.

Lemma land_byte_bounds (x : Z) : 0 <= Z.land x 0xFF <= 255.
Proof. rewrite land_byte; pose proof (Z.mod_pos_bound x 256); lia. Qed.

Lemma ExitStatus_bounds (w : Z) : -1 <= syscall.ExitStatus w <= 255.
Proof.
  unfold syscall.ExitStatus; destruct (syscall.Exited w); [|lia].
  pose proof (land_byte_bounds (Z.shiftr w syscall.shift)); lia.
Qed.

Lemma ExitStatus_negative (w : Z) :
  syscall.ExitStatus w < 0 -> syscall.Exited w = false.
Proof.
  unfold syscall.ExitStatus; destruct (syscall.Exited w); [|reflexivity].
  pose proof (land_byte_bounds (Z.shiftr w syscall.shift)); lia.
Qed.


(** ** ScriptExec *)

Section ScriptExecProperties.

Variable Substitute : string -> gmap string string -> string * option error.
Variable ExecArgTokenizer : string -> list string.
Variable Output : Z -> string -> list string -> handlers.CmdRun.

Local Abbreviation ScriptExec := (handlers.ScriptExec Substitute ExecArgTokenizer Output).
Local Abbreviation observed := (handlers.observed Substitute ExecArgTokenizer Output).
Local Abbreviation applies := (handlers.applies Substitute ExecArgTokenizer Output).

(** Once the command has run, [ScriptExec] returns what lines 49 to 87
    make of the run. *)
Lemma ScriptExec_observed (args : Action.t) (msg : Message.t) (run : handlers.CmdRun) :
  observed args msg = Some run ->
  ScriptExec args msg = Some (handlers.afterOutput (Action.Name args) handlers.defaultResponse run).
Proof.
  unfold handlers.observed, handlers.ScriptExec.
  destruct (Substitute (Action.Cmd args) (Message.Vars msg)) as [cmd [e|]];
    [discriminate|].
  destruct (ExecArgTokenizer cmd) as [|bin0 rest]; [discriminate|].
  intros [= <-]; reflexivity.
Qed.

(** [ScriptExec] returns unless the command has no token at all. *)
Lemma ScriptExec_panics (args : Action.t) (msg : Message.t) :
  ScriptExec args msg = None <-> applies handlers.NoCommand args msg.
Proof.
  unfold handlers.ScriptExec; simpl.
  destruct (Substitute (Action.Cmd args) (Message.Vars msg)) as [cmd [e|]]; simpl.
  - split; [discriminate|intros [? _]; discriminate].
  - destruct (ExecArgTokenizer cmd); split; try discriminate; auto.
    intros [_ ?]; discriminate.
Qed.

(** C1: when the command outlives its deadline, [ScriptExec] returns the
    Status 1 it started from, the fixed Output "Hmm, something timed
    out. Please try again." and the timeout error. *)
Theorem C1_timeout (args : Action.t) (msg : Message.t) (run : handlers.CmdRun) :
  observed args msg = Some run ->
  handlers.DeadlineExceeded run = true ->
  ScriptExec args msg =
    Some ({| ScriptResponse.Status := 1;
             ScriptResponse.Output := "Hmm, something timed out. Please try again." |},
          Some (errorString ("timeout reached, exec process for action '" +:+
                             Action.Name args +:+ "' cancelled"))).
Proof.
  intros Hrun Hlate; rewrite (ScriptExec_observed _ _ _ Hrun).
  unfold handlers.afterOutput; rewrite Hlate; reflexivity.
Qed.

(** C2 (as amended): a command that finishes within its deadline with
    exit code 0 gives Status 0, the standard output with the spaces and
    newlines around it trimmed (other white space stays), and no error. *)
Theorem C2_success (args : Action.t) (msg : Message.t) (run : handlers.CmdRun) :
  observed args msg = Some run ->
  handlers.DeadlineExceeded run = false ->
  handlers.err run = None ->
  syscall.ExitStatus (handlers.ProcessState run) = 0 ->
  ScriptExec args msg =
    Some ({| ScriptResponse.Status := 0;
             ScriptResponse.Output := strings.Trim (handlers.out run) space_newline |},
          None) /\
  strings.Trimmed (strings.Trim (handlers.out run) space_newline) space_newline.
Proof.
  intros Hrun Hlate Herr Hws; split; [|apply Trim_Trimmed].
  rewrite (ScriptExec_observed _ _ _ Hrun).
  unfold handlers.afterOutput; rewrite Hlate, Herr, Hws; reflexivity.
Qed.

(** C3 (as amended): a command that runs and fails within its deadline
    gives the exit status of its wait status, and as Output the trimmed
    standard output if that is not empty, else the trimmed standard
    error, empty or not; the error is returned. *)
Theorem C3_nonzero_exit (args : Action.t) (msg : Message.t) (run : handlers.CmdRun)
    (ws : Z) (Stderr text : string) :
  observed args msg = Some run ->
  handlers.DeadlineExceeded run = false ->
  handlers.err run = Some (ExitError ws Stderr text) ->
  ScriptExec args msg =
    Some ({| ScriptResponse.Status := syscall.ExitStatus ws;
             ScriptResponse.Output :=
               if strings.isEmpty (strings.Trim (handlers.out run) space_newline)
               then strings.Trim Stderr space_newline
               else strings.Trim (handlers.out run) space_newline |},
          Some (ExitError ws Stderr text)).
Proof.
  intros Hrun Hlate Herr; rewrite (ScriptExec_observed _ _ _ Hrun).
  unfold handlers.afterOutput; rewrite Hlate, Herr; simpl.
  destruct (strings.isEmpty (strings.Trim (handlers.out run) space_newline));
    reflexivity.
Qed.

(** The arm for [*os.PathError]: Status 127 and the text of the error,
    no process having started to print anything. *)
Lemma ScriptExec_PathError (args : Action.t) (msg : Message.t) (run : handlers.CmdRun)
    (text : string) :
  observed args msg = Some run ->
  handlers.DeadlineExceeded run = false ->
  handlers.err run = Some (PathError text) ->
  handlers.out run = "" ->
  ScriptExec args msg =
    Some ({| ScriptResponse.Status := 127; ScriptResponse.Output := text |},
          Some (PathError text)).
Proof.
  intros Hrun Hlate Herr Hout; rewrite (ScriptExec_observed _ _ _ Hrun).
  unfold handlers.afterOutput; rewrite Hlate, Herr, Hout; reflexivity.
Qed.

(** Whatever [ScriptExec] returns has a Status from -1 to 255, and -1
    only for a process that did not exit. *)
Lemma afterOutput_Status (name : string) (run : handlers.CmdRun) :
  -1 <= ScriptResponse.Status (fst (handlers.afterOutput name handlers.defaultResponse run)) <= 255.
Proof.
  unfold handlers.afterOutput.
  destruct (handlers.DeadlineExceeded run); simpl; [lia|].
  destruct (handlers.err run) as [e|]; simpl; [|apply ExitStatus_bounds].
  destruct (strings.isEmpty _); destruct e; simpl;
    try apply ExitStatus_bounds; lia.
Qed.

(** A negative Status comes from the wait status of a process that did
    not exit. *)
Lemma afterOutput_negative (name : string) (run : handlers.CmdRun) :
  ScriptResponse.Status (fst (handlers.afterOutput name handlers.defaultResponse run)) < 0 ->
  exists ws, syscall.Exited ws = false /\
    ((handlers.err run = None /\ ws = handlers.ProcessState run) \/
     (exists Stderr text, handlers.err run = Some (ExitError ws Stderr text))).
Proof.
  unfold handlers.afterOutput.
  destruct (handlers.DeadlineExceeded run); simpl; [lia|].
  destruct (handlers.err run) as [e|]; simpl.
  - destruct (strings.isEmpty _); destruct e as [ws Stderr text|text|text|text];
      simpl; try lia; intros Hneg;
      exists ws; (split; [apply ExitStatus_negative; exact Hneg|right; eauto]).
  - intros Hneg; exists (handlers.ProcessState run).
    split; [apply ExitStatus_negative; exact Hneg|left; auto].
Qed.

Lemma afterOutput_Trimmed (name : string) (run : handlers.CmdRun) :
  (forall text, handlers.err run = Some (PathError text) ->
                strings.Trimmed text space_newline) ->
  strings.Trimmed
    (ScriptResponse.Output (fst (handlers.afterOutput name handlers.defaultResponse run)))
    space_newline.
Proof.
  intros Hpath; unfold handlers.afterOutput.
  destruct (handlers.DeadlineExceeded run); simpl; [apply timeoutOutput_Trimmed|].
  destruct (handlers.err run) as [e|]; simpl; [|apply Trim_Trimmed].
  destruct (strings.isEmpty _) eqn:Hout; simpl; [|apply Trim_Trimmed].
  destruct e; simpl; try apply Trim_Trimmed.
  apply Hpath; reflexivity.
Qed.

Local Ltac only_outcome :=
  let H := fresh "H" in
  intros [] H; simpl in H; try reflexivity; exfalso;
  decompose [ex and] H; simplify_eq/=; congruence.

Lemma one_outcome (args : Action.t) (msg : Message.t) :
  exists! o, applies o args msg.
Proof.
  unfold handlers.applies, handlers.observed.
  destruct (Substitute (Action.Cmd args) (Message.Vars msg)) as [cmd [e|]] eqn:Hs;
    simpl.
  { exists handlers.SubstitutionFailure; split; [eauto|].
    only_outcome. }
  destruct (ExecArgTokenizer cmd) as [|bin0 rest] eqn:Ht.
  { exists handlers.NoCommand; split; [auto|].
    only_outcome. }
  set (run := Output _ bin0 rest).
  destruct (handlers.DeadlineExceeded run) eqn:Hlate.
  { exists handlers.Timeout; split; [eauto|].
    only_outcome. }
  destruct (handlers.err run) as [e|] eqn:Herr.
  2:{ exists handlers.Success; split; [eauto|].
      only_outcome. }
  destruct e as [ws Stderr text|text|text|text].
  - exists handlers.NonZeroExit; split; [eauto 10|].
    only_outcome.
  - exists handlers.LookupFailure; split; [eauto 10|].
    only_outcome.
  - exists handlers.OtherFailure; split; [eauto 10|].
    only_outcome.
  - exists handlers.OtherFailure; split; [eauto 10|].
    only_outcome.
Qed.

(** In each outcome [ScriptExec] returns what [outcome.returns] says. *)
Lemma outcome_returns (o : handlers.Outcome) (args : Action.t) (msg : Message.t) :
  applies o args msg ->
  outcome.returns Substitute ExecArgTokenizer Output o args msg (ScriptExec args msg).
Proof.
  destruct o; simpl; intros H.
  - destruct H as [e He]; exists e; split; [exact He|].
    unfold handlers.ScriptExec.
    destruct (Substitute (Action.Cmd args) (Message.Vars msg)) as [cmd [se|]];
      simpl in *; [inversion He; subst; reflexivity|discriminate].
  - destruct H as [Hs Ht]; unfold handlers.ScriptExec.
    destruct (Substitute (Action.Cmd args) (Message.Vars msg)) as [cmd [se|]];
      simpl in *; [discriminate|].
    rewrite Ht; reflexivity.
  - destruct H as (run & Hrun & Hlate).
    rewrite (ScriptExec_observed _ _ _ Hrun).
    unfold handlers.afterOutput; rewrite Hlate; reflexivity.
  - destruct H as (run & text & Hrun & Hlate & Herr).
    exists run, text; split; [exact Hrun|]; split; [exact Herr|].
    rewrite (ScriptExec_observed _ _ _ Hrun).
    unfold handlers.afterOutput; rewrite Hlate, Herr; simpl.
    destruct (strings.isEmpty (strings.Trim (handlers.out run) space_newline));
      reflexivity.
  - destruct H as (run & ws & Stderr & text & Hrun & Hlate & Herr).
    exists run, ws, Stderr, text; split; [exact Hrun|]; split; [exact Herr|].
    rewrite (ScriptExec_observed _ _ _ Hrun).
    unfold handlers.afterOutput; rewrite Hlate, Herr; simpl.
    destruct (strings.isEmpty (strings.Trim (handlers.out run) space_newline));
      reflexivity.
  - destruct H as (run & e & Hrun & Hlate & Herr & Hx & Hp).
    exists run, e; split; [exact Hrun|]; split; [exact Herr|].
    rewrite (ScriptExec_observed _ _ _ Hrun).
    unfold handlers.afterOutput; rewrite Hlate, Herr.
    destruct e; try discriminate;
      destruct (strings.isEmpty (strings.Trim (handlers.out run) space_newline));
      reflexivity.
  - destruct H as (run & Hrun & Hlate & Herr).
    exists run; split; [exact Hrun|].
    rewrite (ScriptExec_observed _ _ _ Hrun).
    unfold handlers.afterOutput; rewrite Hlate, Herr; reflexivity.
Qed.

(** C9 (as amended): every call of [ScriptExec] goes exactly one of seven
    ways (the four of the specification, a failed substitution, a
    command without tokens, a run error of another kind), and what it
    returns is the result of that way: the default response with the
    substitution error, nothing at all for the command without tokens,
    the timeout response and error, Status 127, the exit status or 1 with
    the run error, the exit status and trimmed output with no error.  The
    Output returned has no space or newline at either end, the texts of
    path errors having none; the Status returned lies between -1 and 255,
    and is negative only for a process that did not exit. *)
Theorem C9_outcomes (args : Action.t) (msg : Message.t) :
  (exists o, applies o args msg /\
             outcome.returns Substitute ExecArgTokenizer Output o args msg
               (ScriptExec args msg) /\
             forall o', applies o' args msg -> o' = o) /\
  (ScriptExec args msg = None <-> applies handlers.NoCommand args msg) /\
  (forall r e, ScriptExec args msg = Some (r, e) ->
     ((forall run text, observed args msg = Some run ->
                        handlers.err run = Some (PathError text) ->
                        strings.Trimmed text space_newline) ->
      strings.Trimmed (ScriptResponse.Output r) space_newline) /\
     -1 <= ScriptResponse.Status r <= 255 /\
     (ScriptResponse.Status r < 0 ->
        exists run ws, observed args msg = Some run /\ syscall.Exited ws = false /\
          ((handlers.err run = None /\ ws = handlers.ProcessState run) \/
           (exists Stderr text, handlers.err run = Some (ExitError ws Stderr text))))).
Proof.
  split; [|split; [apply ScriptExec_panics|]].
  { destruct (one_outcome args msg) as (o & Ho & Honly).
    exists o; split; [exact Ho|]; split; [apply outcome_returns; exact Ho|].
    intros o' Ho'; symmetry; apply Honly; exact Ho'. }
  intros r e; unfold handlers.ScriptExec, handlers.observed.
  destruct (Substitute (Action.Cmd args) (Message.Vars msg)) as [cmd [se|]].
  - intros Hret; simpl in Hret; inversion Hret; subst.
    split; [intros _; apply Trimmed_empty|simpl; split; lia].
  - simpl; destruct (ExecArgTokenizer cmd) as [|bin0 rest]; [discriminate|].
    intros Hret.
    match type of Hret with
    | Some ?a = _ => assert (Hr : r = fst a) by (inversion Hret as [Hre]; rewrite Hre; reflexivity)
    end.
    rewrite Hr; split; [|split; [apply afterOutput_Status|]].
    + intros Hpath; apply afterOutput_Trimmed; intros text; apply Hpath; reflexivity.
    + intros Hneg; apply afterOutput_negative in Hneg as (ws & Hws & Hcase).
      eexists; exists ws; split; [reflexivity|]; split; assumption.
Qed.

End ScriptExecProperties.

Lemma C1_timeout_witness :
  handlers.observed sample.noSubstitution sample.oneToken sample.machine
    (sample.action "sleep" 1) sample.message
    = Some (sample.machine 1000000000 "sleep" []) /\
  sample.ScriptExec (sample.action "sleep" 1) sample.message =
    Some ({| ScriptResponse.Status := 1;
             ScriptResponse.Output := "Hmm, something timed out. Please try again." |},
          Some (errorString "timeout reached, exec process for action 'demo' cancelled")).
Proof.
  split; [reflexivity|].
  apply (C1_timeout sample.noSubstitution sample.oneToken sample.machine
           (sample.action "sleep" 1) sample.message
           (sample.machine 1000000000 "sleep" [])); reflexivity.
Defined.

Lemma C2_success_witness :
  sample.ScriptExec (sample.action "hello" 0) sample.message =
    Some ({| ScriptResponse.Status := 0; ScriptResponse.Output := "hello" |}, None) /\
  strings.Trimmed "hello" space_newline.
Proof.
  apply (C2_success sample.noSubstitution sample.oneToken sample.machine
           (sample.action "hello" 0) sample.message
           (sample.machine 20000000000 "hello" [])); reflexivity.
Defined.

Lemma C3_nonzero_exit_witness :
  sample.ScriptExec (sample.action "fail" 5) sample.message =
    Some ({| ScriptResponse.Status := 2; ScriptResponse.Output := "no such rule" |},
          Some (ExitError 512 (" no such rule" +:+ sample.nl) "exit status 2")) /\
  sample.ScriptExec (sample.action "half" 5) sample.message =
    Some ({| ScriptResponse.Status := 3; ScriptResponse.Output := "partial" |},
          Some (ExitError 768 ("then it broke" +:+ sample.nl) "exit status 3")).
Proof.
  split.
  - apply (C3_nonzero_exit sample.noSubstitution sample.oneToken sample.machine
             (sample.action "fail" 5) sample.message
             (sample.machine 5000000000 "fail" [])
             512 (" no such rule" +:+ sample.nl) "exit status 2"); reflexivity.
  - apply (C3_nonzero_exit sample.noSubstitution sample.oneToken sample.machine
             (sample.action "half" 5) sample.message
             (sample.machine 5000000000 "half" [])
             768 ("then it broke" +:+ sample.nl) "exit status 3"); reflexivity.
Defined.

(** C2, as the specification words it, fails: a command that prints a
    tab, "hi", a carriage return and a newline and exits 0 gets the tab
    and the carriage return back in its Output, which is not the output
    with the white space around it trimmed. *)
Lemma C2_counterexample :
  exists r run,
    handlers.observed sample.noSubstitution sample.oneToken outcome.tabbed
      (sample.action "printf" 5) sample.message = Some run /\
    handlers.DeadlineExceeded run = false /\
    handlers.err run = None /\
    syscall.ExitStatus (handlers.ProcessState run) = 0 /\
    handlers.ScriptExec sample.noSubstitution sample.oneToken outcome.tabbed
      (sample.action "printf" 5) sample.message = Some (r, None) /\
    ScriptResponse.Output r = String "009"%char "hi" +:+ String "013"%char "" /\
    outcome.described_success_output (handlers.out run) = "hi" /\
    ScriptResponse.Output r <> outcome.described_success_output (handlers.out run).
Proof.
  do 2 eexists; repeat (split; [reflexivity|]); discriminate.
Qed.

(** C3, as the specification words it, fails: [false] exits 1 and prints
    nothing on either stream; the Output returned is empty, not the text of
    the error. *)
Lemma C3_counterexample :
  exists r,
    sample.ScriptExec (sample.action "false" 5) sample.message
      = Some (r, Some (ExitError 256 "" "exit status 1")) /\
    syscall.ExitStatus 256 = 1 /\
    handlers.described_output "" "" "exit status 1" = "exit status 1" /\
    ScriptResponse.Output r <> handlers.described_output "" "" "exit status 1".
Proof.
  eexists; split; [reflexivity|]; split; [reflexivity|]; split; [reflexivity|].
  discriminate.
Qed.

(** C4: a bare command name that is on no search path makes
    [cmd.Output()] return an [*exec.Error]; the switch has no arm for it,
    and the Status returned is the default 1, not 127. *)
Theorem C4_bare_name_not_found :
  sample.ScriptExec (sample.action "nosuchbinary" 5) sample.message =
    Some ({| ScriptResponse.Status := 1; ScriptResponse.Output := sample.notOnPath |},
          Some (ExecError sample.notOnPath)) /\
  sample.ScriptExec (sample.action "/no/such/binary" 5) sample.message =
    Some ({| ScriptResponse.Status := 127; ScriptResponse.Output := sample.noSuchFile |},
          Some (PathError sample.noSuchFile)).
Proof. split; reflexivity. Qed.

Lemma C9_outcomes_witness :
  sample.ScriptExec (sample.action "half" 5) sample.message =
    Some ({| ScriptResponse.Status := 3; ScriptResponse.Output := "partial" |},
          Some (ExitError 768 ("then it broke" +:+ sample.nl) "exit status 3")) /\
  handlers.applies sample.noSubstitution sample.oneToken sample.machine
    handlers.NonZeroExit (sample.action "half" 5) sample.message /\
  strings.Trimmed "partial" space_newline.
Proof.
  destruct (C9_outcomes sample.noSubstitution sample.oneToken sample.machine
              (sample.action "half" 5) sample.message) as ((o & Ho & _ & Honly) & _ & Hres).
  assert (Hnz : handlers.applies sample.noSubstitution sample.oneToken sample.machine
                  handlers.NonZeroExit (sample.action "half" 5) sample.message)
    by (simpl; do 4 eexists; split; [reflexivity|]; split; reflexivity).
  split; [reflexivity|]; split; [exact Hnz|].
  destruct (Hres _ _ eq_refl) as (Htrim & _).
  apply Htrim; intros run text [= <-]; discriminate.
Defined.

(** C9, as the specification words it, fails twice over: a failed
    substitution returns a result to which none of the four outcomes
    applies, and a process killed by a signal gives Status -1. *)
Lemma C9_counterexample :
  (exists r e,
     handlers.ScriptExec sample.failingSubstitution sample.oneToken sample.machine
       (sample.action "hello ${name}" 5) sample.message = Some (r, e) /\
     forall o, handlers.listed o = true ->
       ~ handlers.applies sample.failingSubstitution sample.oneToken sample.machine o
           (sample.action "hello ${name}" 5) sample.message) /\
  (exists r e,
     sample.ScriptExec (sample.action "crash" 5) sample.message = Some (r, e) /\
     ScriptResponse.Status r = -1).
Proof.
  split.
  - do 2 eexists; split; [reflexivity|].
    intros [] Hl; try discriminate Hl; simpl;
      intros H; decompose [ex and] H; discriminate.
  - do 2 eexists; split; reflexivity.
Qed.

(** ** Lengths of byte strings *)

Lemma length_append (s1 s2 : string) :
  String.length (s1 +:+ s2) = (String.length s1 + String.length s2)%nat.
Proof.
  induction s1 as [|a s1 IH]; [reflexivity|].
  change (String a s1 +:+ s2) with (String a (s1 +:+ s2)).
  simpl; rewrite IH; reflexivity.
Qed.

Lemma length_prefix (n : nat) (s : string) :
  (n <= String.length s)%nat -> String.length (strings.prefix n s) = n.
Proof.
  unfold strings.prefix; revert s; induction n as [|n IH]; intros s Hn.
  - destruct s; reflexivity.
  - destruct s as [|a s]; simpl in *; [lia|].
    rewrite IH by lia; reflexivity.
Qed.

(** ** The Slack remote *)

Section RemoteProperties.

Variable Slack : Type.
Variable RemoveReaction : string -> string -> slack.ItemRef -> Slack -> option error * Slack.
Variable AddReaction : string -> string -> slack.ItemRef -> Slack -> option error * Slack.
Variable getRooms : string -> Slack -> gmap string string.
Variable AuthTest : string -> Slack -> string + error.
Variable readFromSocketMode : slack.SocketClient -> slack.Bot -> slack.Bot * list Message.t.
Variable readFromEventsAPI : string -> string -> slack.Bot -> slack.Bot * list Message.t.
Variable MaxMessageTextLength : Z.
Variable MessageTimestamp : Z.
Variable isValidPath : string -> bool.

Local Abbreviation Reaction := (slack.Reaction Slack RemoveReaction AddReaction).
Local Abbreviation addReaction := (slack.addReaction Slack AddReaction).
Local Abbreviation Read :=
  (slack.Read Slack getRooms AuthTest readFromSocketMode readFromEventsAPI).
Local Abbreviation truncate := (slack.truncate MaxMessageTextLength).
Local Abbreviation Send := (slack.Send MaxMessageTextLength MessageTimestamp).
Local Abbreviation InteractiveComponents := (slack.InteractiveComponents isValidPath).

Lemma isEmpty_true (s : string) : strings.isEmpty s = true <-> s = "".
Proof. destruct s; simpl; split; congruence. Qed.

Lemma isEmpty_false (s : string) : strings.isEmpty s = false <-> s <> "".
Proof. destruct s; simpl; split; congruence. Qed.

(** What [truncate] returns for an Output over the limit, and for one
    within it. *)
Lemma truncate_long (output : string) :
  3 <= MaxMessageTextLength ->
  Z.of_nat (String.length output) > MaxMessageTextLength ->
  truncate output =
    strings.prefix (Z.to_nat (MaxMessageTextLength - 3)) output +:+ "..." /\
  Z.of_nat (String.length (strings.prefix (Z.to_nat (MaxMessageTextLength - 3)) output))
    = MaxMessageTextLength - 3 /\
  Z.of_nat (String.length (truncate output)) = MaxMessageTextLength.
Proof.
  intros Hmax Hlen; unfold slack.truncate.
  destruct (Z.gtb_spec (Z.of_nat (String.length output)) MaxMessageTextLength); [|lia].
  assert (Hp : String.length (strings.prefix (Z.to_nat (MaxMessageTextLength - 3)) output)
               = Z.to_nat (MaxMessageTextLength - 3)) by (apply length_prefix; lia).
  split; [reflexivity|]; split; [rewrite Hp; lia|].
  rewrite length_append, Hp; simpl; lia.
Qed.

Lemma truncate_short (output : string) :
  Z.of_nat (String.length output) <= MaxMessageTextLength ->
  truncate output = output.
Proof.
  intros Hlen; unfold slack.truncate.
  destruct (Z.gtb_spec (Z.of_nat (String.length output)) MaxMessageTextLength);
    [lia|reflexivity].
Qed.

(** The one message [Send] can transmit. *)
Lemma Send_transmits (c : slack.Client) (message : Message.t)
    (token : string) (m : Message.t) :
  In (slack.CallSend token m) (Send c message) ->
  token = slack.Token c /\
  m = slack.setEndTime MessageTimestamp
        (slack.setOutput (truncate (Message.Output message)) message).
Proof.
  unfold slack.Send; simpl.
  destruct (Message.Type_ message); simpl; intros [H|[H|[]]];
    try discriminate H; injection H as <- <-; split; reflexivity.
Qed.

(** C5 (as amended): a message of one of the three types is transmitted,
    once; an Output longer than the limit is transmitted as its first
    (limit - 3) bytes followed by "...", which has exactly the length of
    the limit; an Output within the limit is transmitted as it is. *)
Theorem C5_send_truncates (c : slack.Client) (message : Message.t) :
  3 <= MaxMessageTextLength ->
  Message.Type_ message <> MsgTypeUnknown ->
  exists m,
    Send c message =
      [slack.Log slack.DebugLevel ("sending message '" +:+ Message.ID message +:+ "'");
       slack.CallSend (slack.Token c) m] /\
    (Z.of_nat (String.length (Message.Output message)) > MaxMessageTextLength ->
       Message.Output m =
         strings.prefix (Z.to_nat (MaxMessageTextLength - 3)) (Message.Output message)
         +:+ "..." /\
       Z.of_nat (String.length
                   (strings.prefix (Z.to_nat (MaxMessageTextLength - 3))
                      (Message.Output message))) = MaxMessageTextLength - 3 /\
       Z.of_nat (String.length (Message.Output m)) = MaxMessageTextLength) /\
    (Z.of_nat (String.length (Message.Output message)) <= MaxMessageTextLength ->
       Message.Output m = Message.Output message).
Proof.
  intros Hmax Hknown; eexists; split; [|split].
  - unfold slack.Send; simpl; destruct (Message.Type_ message);
      [congruence|reflexivity..].
  - simpl; intros Hlen; destruct (truncate_long _ Hmax Hlen) as (H1 & H2 & H3).
    rewrite H1 at 1; auto.
  - simpl; apply truncate_short.
Qed.

(** C7: a message of none of the three types is not transmitted; [Send]
    logs the warning and returns. *)
Theorem C7_unknown_type (c : slack.Client) (message : Message.t) :
  Message.Type_ message <> MsgTypeDirect ->
  Message.Type_ message <> MsgTypeChannel ->
  Message.Type_ message <> MsgTypePrivateChannel ->
  (forall token m, ~ In (slack.CallSend token m) (Send c message)) /\
  Send c message =
    [slack.Log slack.DebugLevel ("sending message '" +:+ Message.ID message +:+ "'");
     slack.Log slack.WarnLevel "received unknown message type - no message to send"].
Proof.
  intros Hd Hc Hp.
  assert (Hs : Send c message =
    [slack.Log slack.DebugLevel ("sending message '" +:+ Message.ID message +:+ "'");
     slack.Log slack.WarnLevel "received unknown message type - no message to send"]).
  { unfold slack.Send; simpl; destruct (Message.Type_ message); congruence. }
  split; [|exact Hs].
  intros token m; rewrite Hs; simpl; intros [H|[H|[]]]; discriminate H.
Qed.

(** The messages of the three types are transmitted, once. *)
Lemma Send_known_type (c : slack.Client) (message : Message.t) :
  Message.Type_ message <> MsgTypeUnknown ->
  Send c message =
    [slack.Log slack.DebugLevel ("sending message '" +:+ Message.ID message +:+ "'");
     slack.CallSend (slack.Token c)
       (slack.setEndTime MessageTimestamp
          (slack.setOutput (truncate (Message.Output message)) message))].
Proof.
  unfold slack.Send; simpl; destruct (Message.Type_ message); congruence.
Qed.

(** C6 (as amended): with a RemoveReaction the removal is called on the
    message's (ChannelID, Timestamp); with a Reaction the addition is
    called on the same message, provided no removal failed before it; a
    failed removal is logged and ends the call; a failed addition is
    logged; no other message is touched. *)
Theorem C6_reaction (c : slack.Client) (message : Message.t) (rule : Rule.t) (s : Slack) :
  let item := slack.NewRefToMessage (Message.ChannelID message) (Message.Timestamp message) in
  let removal := RemoveReaction (slack.Token c) (Rule.RemoveReaction rule) item s in
  let before_add := if strings.isEmpty (Rule.RemoveReaction rule) then s else snd removal in
  let addition := AddReaction (slack.Token c) (Rule.Reaction rule) item before_add in
  let evs := fst (Reaction c message rule s) in
  (Rule.RemoveReaction rule <> "" ->
     In (slack.CallRemoveReaction (slack.Token c) (Rule.RemoveReaction rule) item) evs) /\
  (Rule.Reaction rule <> "" ->
   Rule.RemoveReaction rule = "" \/ fst removal = None ->
     In (slack.CallAddReaction (slack.Token c) (Rule.Reaction rule) item) evs) /\
  (forall e, Rule.RemoveReaction rule <> "" -> fst removal = Some e ->
     evs = [slack.CallRemoveReaction (slack.Token c) (Rule.RemoveReaction rule) item;
            slack.Log slack.ErrorLevel ("could not add reaction: " +:+ Error e)]) /\
  (forall e, Rule.Reaction rule <> "" ->
     Rule.RemoveReaction rule = "" \/ fst removal = None ->
     fst addition = Some e ->
     In (slack.Log slack.ErrorLevel ("could not add reaction: " +:+ Error e)) evs) /\
  (forall token name other,
     In (slack.CallRemoveReaction token name other) evs \/
     In (slack.CallAddReaction token name other) evs -> other = item).
Proof.
  unfold slack.Reaction, slack.addReaction; cbv zeta.
  destruct (strings.isEmpty (Rule.RemoveReaction rule)) eqn:Hrm;
    [apply isEmpty_true in Hrm|apply isEmpty_false in Hrm];
    destruct (strings.isEmpty (Rule.Reaction rule)) eqn:Hadd;
    [apply isEmpty_true in Hadd|apply isEmpty_false in Hadd
    |apply isEmpty_true in Hadd|apply isEmpty_false in Hadd].
  - simpl; repeat split; try tauto; try congruence.
  - destruct (AddReaction _ _ _ s) as [[e|] s'] eqn:Ha; simpl;
      repeat split; try tauto; try congruence;
      try (intros ? ? ? [= <-]; tauto);
      intros ? ? ? [[H|[H|[]]]|[H|[H|[]]]]; congruence.
  - destruct (RemoveReaction _ _ _ s) as [[e|] s'] eqn:Hr; simpl;
      repeat split; try tauto; try congruence;
      try (intros ? ? [= <-]; reflexivity);
      try (intros ? ? [?|[=]]; congruence);
      intros ? ? ? [[H|[H|[]]]|[H|[H|[]]]]; congruence.
  - destruct (RemoveReaction _ _ _ s) as [[e|] s'] eqn:Hr; simpl.
    + repeat split; try tauto; try congruence;
        try (intros ? [?|[=]]; congruence);
        try (intros ? ? [= <-]; reflexivity);
        try (intros ? ? [?|[=]]; congruence);
        intros ? ? ? [[H|[H|[]]]|[H|[H|[]]]]; congruence.
    + destruct (AddReaction _ _ _ s') as [[e|] s''] eqn:Ha; simpl;
        repeat split; try tauto; try congruence;
        try (intros ? ? ? [= <-]; tauto);
        intros ? ? ? [[H|[H|[H|[H|[]]]]]|[H|[H|[H|[H|[]]]]]]; congruence.
Qed.

(** Once the router exists, [InteractiveComponents] leaves the package
    state as it is and starts no server. *)
Lemma InteractiveComponents_initialized (c : slack.Client) (message : Message.t)
    (rule : Rule.t) (bot : slack.Bot) (p : slack.Package) :
  slack.interactionsRouter p <> None ->
  fst (InteractiveComponents c message rule bot p) = p /\
  forall addr, ~ In (slack.GoListenAndServe addr)
                   (snd (InteractiveComponents c message rule bot p)).
Proof.
  intros Hr; unfold slack.InteractiveComponents.
  destruct (_ && _); [|split; [reflexivity|intros addr []]].
  destruct (strings.isEmpty _).
  { split; [reflexivity|intros addr [H|[H|[]]]; discriminate H]. }
  destruct (slack.interactionsRouter p); [|congruence].
  split; [reflexivity|intros addr [H|[]]; discriminate H].
Qed.

(** C8 (as amended): after a first activation that has set the router,
    a second one registers no route and starts no listener; if the first
    one got as far as listening (its callback path was valid), what is
    left is the one listener on the health route and the callback route;
    if it stopped at an invalid callback path, what is left is the health
    route alone and nothing listening. *)
Theorem C8_second_activation
    (c1 : slack.Client) (m1 : Message.t) (r1 : Rule.t) (b1 : slack.Bot)
    (c2 : slack.Client) (m2 : Message.t) (r2 : Rule.t) (b2 : slack.Bot) :
  let p1 := fst (InteractiveComponents c1 m1 r1 b1 slack.initial) in
  let second := InteractiveComponents c2 m2 r2 b2 p1 in
  slack.interactionsRouter p1 <> None ->
  slack.interactionsRouter (fst second) = slack.interactionsRouter p1 /\
  slack.listeners (fst second) = slack.listeners p1 /\
  (forall addr, ~ In (slack.GoListenAndServe addr) (snd second)) /\
  (isValidPath (slack.SlackInteractionsCallbackPath b1) = true ->
     slack.listeners (fst second) = [":4000"] /\
     slack.interactionsRouter (fst second) =
       Some [ {| slack.path := "/interaction_health"; slack.handler := slack.HealthHandler;
                 slack.methods := ["GET"] |};
              {| slack.path := slack.SlackInteractionsCallbackPath b1;
                 slack.handler := slack.RuleHandler (slack.SigningSecret c1) m1 r1;
                 slack.methods := ["POST"] |} ]) /\
  (isValidPath (slack.SlackInteractionsCallbackPath b1) = false ->
     slack.listeners (fst second) = [] /\
     slack.interactionsRouter (fst second) =
       Some [ {| slack.path := "/interaction_health"; slack.handler := slack.HealthHandler;
                 slack.methods := ["GET"] |} ]).
Proof.
  intros p1 second Hr.
  destruct (InteractiveComponents_initialized c2 m2 r2 b2 p1 Hr) as [Hsame Hnone].
  fold second in Hsame, Hnone; rewrite Hsame.
  split; [reflexivity|]; split; [reflexivity|]; split; [exact Hnone|].
  split; intros Hvalid; revert Hr; subst p1; unfold slack.InteractiveComponents;
    (destruct (_ && _); [|simpl; congruence]);
    (destruct (strings.isEmpty _); [simpl; congruence|]);
    simpl; rewrite Hvalid; simpl; intros _; split; reflexivity.
Qed.

(** C10: [Read] calls [getRooms] and stores the rooms before it calls
    [AuthTest]; if the test fails it returns with the new rooms, the old
    ID and nothing written; if the test succeeds the ID is the user ID of
    the answer when the transport is started. *)
Theorem C10_read_rooms_first (c : slack.Client) (bot : slack.Bot) (s : Slack) :
  let rooms := getRooms (slack.Token c) s in
  let res := Read c bot s in
  (exists rest, slack.events res =
     slack.CallGetRooms (slack.Token c) :: slack.CallAuthTest (slack.Token c) :: rest) /\
  (forall e, AuthTest (slack.Token c) s = inr e ->
     slack.bot_after res = slack.setRooms rooms bot /\
     slack.Rooms (slack.bot_after res) = rooms /\
     slack.ID (slack.bot_after res) = slack.ID bot /\
     slack.written res = [] /\
     slack.events res =
       [slack.CallGetRooms (slack.Token c); slack.CallAuthTest (slack.Token c);
        slack.Log slack.ErrorLevel "the 'slack_token' that was provided was invalid or is unauthorized - closing slack message reader"]) /\
  (forall UserID, AuthTest (slack.Token c) s = inl UserID ->
     let ready := slack.setID UserID (slack.setRooms rooms bot) in
     slack.ID ready = UserID /\ slack.Rooms ready = rooms /\
     (slack.bot_after res, slack.written res) =
       if negb (strings.isEmpty (slack.AppToken c)) then
         readFromSocketMode
           {| slack.smToken := slack.SlackToken bot; slack.smDebug := slack.Debug bot;
              slack.smAppLevelToken := slack.AppToken c |} ready
       else if negb (strings.isEmpty (slack.SigningSecret c)) then
         readFromEventsAPI (slack.Token c) (slack.SigningSecret c) ready
       else (ready, [])).
Proof.
  cbv zeta; unfold slack.Read.
  destruct (AuthTest (slack.Token c) s) as [UserID|e].
  - split; [|split; [discriminate|]].
    + destruct (negb (strings.isEmpty (slack.AppToken c)));
        [destruct (readFromSocketMode _ _); simpl; eauto|].
      destruct (negb (strings.isEmpty (slack.SigningSecret c)));
        [destruct (readFromEventsAPI _ _ _); simpl; eauto|simpl; eauto].
    + intros ? [= <-]; split; [reflexivity|]; split; [reflexivity|].
      destruct (negb (strings.isEmpty (slack.AppToken c)));
        [simpl; destruct (readFromSocketMode _ _); reflexivity|].
      destruct (negb (strings.isEmpty (slack.SigningSecret c)));
        [simpl; destruct (readFromEventsAPI _ _ _); reflexivity|reflexivity].
  - split; [simpl; eauto|]; split; [|discriminate].
    intros _ _; repeat split.
Qed.

End RemoteProperties.

(** The example of the specification: 4500 bytes against a limit of 4000
    are sent as 3997 bytes and "...". *)
Lemma C5_send_truncates_witness :
  exists m,
    sample.Send (sample.client "xoxb-valid")
      (sample.typed MsgTypeChannel (sample.filler 4500)) =
      [slack.Log slack.DebugLevel "sending message 'm2'";
       slack.CallSend "xoxb-valid" m] /\
    Message.Output m = strings.prefix 3997 (sample.filler 4500) +:+ "..." /\
    Z.of_nat (String.length (Message.Output m)) = 4000.
Proof.
  destruct (C5_send_truncates 4000 1700000000 (sample.client "xoxb-valid")
              (sample.typed MsgTypeChannel (sample.filler 4500)))
    as (m & Hsend & Hlong & _); [lia|discriminate|].
  exists m; split; [exact Hsend|].
  destruct Hlong as (H1 & _ & H3); [vm_compute; reflexivity|].
  split; [exact H1|exact H3].
Defined.

(** C5, as the specification words it, fails: a message of no known type
    with an Output within the limit is not transmitted at all. *)
Lemma C5_counterexample :
  Z.of_nat (String.length (Message.Output (sample.typed MsgTypeUnknown "hi"))) <= 4000 /\
  sample.Send (sample.client "xoxb-valid") (sample.typed MsgTypeUnknown "hi") =
    [slack.Log slack.DebugLevel "sending message 'm2'";
     slack.Log slack.WarnLevel "received unknown message type - no message to send"] /\
  ~ (exists token m,
       In (slack.CallSend token m)
          (sample.Send (sample.client "xoxb-valid") (sample.typed MsgTypeUnknown "hi"))).
Proof.
  split; [simpl; lia|]; split; [reflexivity|].
  intros (token & m & [H|[H|[]]]); discriminate H.
Qed.

Lemma C7_unknown_type_witness :
  Message.Type_ (sample.typed MsgTypeUnknown "hi") <> MsgTypeDirect /\
  sample.Send (sample.client "xoxb-valid") (sample.typed MsgTypeUnknown "hi") =
    [slack.Log slack.DebugLevel "sending message 'm2'";
     slack.Log slack.WarnLevel "received unknown message type - no message to send"].
Proof.
  split; [discriminate|].
  apply (C7_unknown_type 4000 1700000000 (sample.client "xoxb-valid")
           (sample.typed MsgTypeUnknown "hi")); discriminate.
Defined.

(** C6, as the specification words it, fails: the message carries no
    "eyes" reaction, the removal fails, and the "white_check_mark" of the
    rule is never added. *)
Lemma C6_counterexample :
  let rule := sample.rule "eyes" "white_check_mark" in
  let item := slack.NewRefToMessage "C024BE91L" "1355517523.000005" in
  let after := sample.Reaction (sample.client "xoxb-valid") sample.message rule [] in
  Rule.Reaction rule <> "" /\
  fst after =
    [slack.CallRemoveReaction "xoxb-valid" "eyes" item;
     slack.Log slack.ErrorLevel "could not add reaction: no_reaction"] /\
  ~ In (slack.CallAddReaction "xoxb-valid" "white_check_mark" item) (fst after) /\
  snd after = [].
Proof.
  cbv zeta; split; [discriminate|]; split; [reflexivity|]; split; [|reflexivity].
  intros [H|[H|[]]]; discriminate H.
Qed.

Lemma C8_second_activation_witness :
  let p1 := fst (sample.InteractiveComponents (sample.client "xoxb-valid") sample.message
                   (sample.rule "" "eyes") sample.bot slack.initial) in
  let second := sample.InteractiveComponents (sample.client "xoxb-valid")
                  (sample.typed MsgTypeDirect "again") (sample.rule "eyes" "") sample.bot p1 in
  slack.interactionsRouter p1 <> None /\
  slack.listeners (fst second) = [":4000"] /\
  (forall addr, ~ In (slack.GoListenAndServe addr) (snd second)).
Proof.
  cbv zeta.
  assert (Hr : slack.interactionsRouter
                 (fst (sample.InteractiveComponents (sample.client "xoxb-valid")
                         sample.message (sample.rule "" "eyes") sample.bot slack.initial))
               <> None) by discriminate.
  split; [exact Hr|].
  destruct (C8_second_activation sample.isValidPath
              (sample.client "xoxb-valid") sample.message (sample.rule "" "eyes") sample.bot
              (sample.client "xoxb-valid") (sample.typed MsgTypeDirect "again")
              (sample.rule "eyes" "") sample.bot Hr) as (_ & _ & Hnone & Hone & _).
  split; [apply Hone; reflexivity|exact Hnone].
Defined.

(** C8, as the specification words it, fails: a first activation with a
    callback path that is not valid sets the router and returns; the
    second activation, with a valid path, finds the router and builds
    nothing, and no route set is listening. *)
Lemma C8_counterexample :
  let p1 := fst (runs.activate sample.isValidPath runs.firstBadPath slack.initial) in
  let second := runs.activate sample.isValidPath runs.first p1 in
  slack.interactionsRouter p1 <> None /\
  slack.listeners (fst second) = [] /\
  length (slack.listeners (fst second)) <> 1%nat.
Proof.
  cbv zeta; split; [discriminate|]; split; [reflexivity|discriminate].
Qed.

(** * Further properties of ScriptExec *)

Section ScriptExecMore.

Variable Substitute : string -> gmap string string -> string * option error.
Variable ExecArgTokenizer : string -> list string.
Variable Output : Z -> string -> list string -> handlers.CmdRun.

Local Abbreviation ScriptExec := (handlers.ScriptExec Substitute ExecArgTokenizer Output).
Local Abbreviation observed := (handlers.observed Substitute ExecArgTokenizer Output).
Local Abbreviation applies := (handlers.applies Substitute ExecArgTokenizer Output).

(** X1: when the substitution fails, [ScriptExec] returns the default
    response (Status 1, empty Output) with the substitution error, and no
    command is tokenized or run. *)
Theorem X1_substitution_failure (args : Action.t) (msg : Message.t) (e : error) :
  snd (Substitute (Action.Cmd args) (Message.Vars msg)) = Some e ->
  ScriptExec args msg =
    Some ({| ScriptResponse.Status := 1; ScriptResponse.Output := "" |}, Some e) /\
  observed args msg = None.
Proof.
  unfold handlers.ScriptExec, handlers.observed.
  destruct (Substitute (Action.Cmd args) (Message.Vars msg)) as [cmd [se|]]; simpl;
    [|discriminate].
  intros [= ->]; split; reflexivity.
Qed.

(** X2: the command that is run is the first token of the substituted
    command with the other tokens as its arguments, under a deadline of 20
    seconds when the action's Timeout is 0 and of Timeout seconds otherwise
    (in nanoseconds, for a Timeout up to 9223372036). *)
Theorem X2_deadline (args : Action.t) (msg : Message.t) (run : handlers.CmdRun) :
  0 <= Action.Timeout args <= 9223372036 ->
  observed args msg = Some run ->
  exists cmd bin0 rest,
    Substitute (Action.Cmd args) (Message.Vars msg) = (cmd, None) /\
    ExecArgTokenizer cmd = bin0 :: rest /\
    run = Output (if Action.Timeout args =? 0 then 20000000000
                  else Action.Timeout args * 1000000000) bin0 rest.
Proof.
  intros Hrange; unfold handlers.observed.
  destruct (Substitute (Action.Cmd args) (Message.Vars msg)) as [cmd [se|]];
    [discriminate|].
  destruct (ExecArgTokenizer cmd) as [|bin0 rest] eqn:Ht; [discriminate|].
  intros [= <-]; exists cmd, bin0, rest; split; [reflexivity|]; split; [exact Ht|].
  f_equal; unfold handlers.seconds, handlers.wrap64, handlers.Second.
  destruct (Z.eqb_spec (Action.Timeout args) 0) as [Hz|Hnz]; [reflexivity|].
  rewrite Z.mod_small; lia.
Qed.

(** X3: a Timeout whose nanoseconds pass the 64-bit range once wraps
    around: the command is run under a negative deadline, Timeout * 10^9
    - 2^64. *)
Theorem X3_deadline_wraps (args : Action.t) (msg : Message.t) (run : handlers.CmdRun) :
  2 ^ 63 <= Action.Timeout args * 1000000000 < 2 ^ 64 ->
  observed args msg = Some run ->
  exists bin0 rest,
    run = Output (Action.Timeout args * 1000000000 - 2 ^ 64) bin0 rest /\
    Action.Timeout args * 1000000000 - 2 ^ 64 < 0.
Proof.
  intros Hrange; unfold handlers.observed.
  destruct (Substitute (Action.Cmd args) (Message.Vars msg)) as [cmd [se|]];
    [discriminate|].
  destruct (ExecArgTokenizer cmd) as [|bin0 rest] eqn:Ht; [discriminate|].
  intros [= <-]; exists bin0, rest; split; [|lia].
  f_equal; unfold handlers.seconds, handlers.wrap64, handlers.Second.
  destruct (Z.eqb_spec (Action.Timeout args) 0) as [Hz|Hnz];
    [rewrite Hz in Hrange; simpl in Hrange; lia|].
  replace (Action.Timeout args * 1000000000 + 2 ^ 63)
    with ((Action.Timeout args * 1000000000 - 2 ^ 63) + 1 * 2 ^ 64) by lia.
  rewrite Z.mod_add by lia; rewrite Z.mod_small; lia.
Qed.

(** X4: [ScriptExec] returns a nil error exactly when the command ran
    within its deadline and [cmd.Output()] gave no error; the result is
    then the exit status of the process state and the trimmed standard
    output. *)
Theorem X4_nil_error_iff_success (args : Action.t) (msg : Message.t)
    (r : ScriptResponse.t) :
  ScriptExec args msg = Some (r, None) <->
  exists run, observed args msg = Some run /\
              handlers.DeadlineExceeded run = false /\
              handlers.err run = None /\
              r = {| ScriptResponse.Status := syscall.ExitStatus (handlers.ProcessState run);
                     ScriptResponse.Output :=
                       strings.Trim (handlers.out run) space_newline |}.
Proof.
  unfold handlers.ScriptExec, handlers.observed.
  destruct (Substitute (Action.Cmd args) (Message.Vars msg)) as [cmd [se|]]; simpl.
  { split; [discriminate|intros (run & H & _); discriminate H]. }
  destruct (ExecArgTokenizer cmd) as [|bin0 rest].
  { split; [discriminate|intros (run & H & _); discriminate H]. }
  unfold handlers.afterOutput.
  set (run := Output _ bin0 rest).
  destruct (handlers.DeadlineExceeded run) eqn:Hlate.
  { split; [discriminate|]. intros (run' & [= <-] & Hl & _); congruence. }
  destruct (handlers.err run) as [e|] eqn:Herr.
  { split; [discriminate|]. intros (run' & [= <-] & _ & He & _); congruence. }
  split.
  - intros [= <-]; exists run; auto.
  - intros (run' & [= <-] & _ & _ & ->); reflexivity.
Qed.




End ScriptExecMore.

(** * Further properties of the Slack remote *)

Lemma prefix_append (n : nat) (s t : string) :
  (n <= String.length s)%nat ->
  strings.prefix n (s +:+ t) = strings.prefix n s.
Proof.
  unfold strings.prefix; revert s; induction n as [|n IH]; intros s Hn.
  - destruct s; destruct t; reflexivity.
  - destruct s as [|a s]; simpl in Hn; [lia|].
    change (String a s +:+ t) with (String a (s +:+ t)); simpl.
    rewrite IH by lia; reflexivity.
Qed.

Lemma prefix_prefix (n : nat) (s : string) :
  (n <= String.length s)%nat ->
  strings.prefix n (strings.prefix n s) = strings.prefix n s.
Proof.
  unfold strings.prefix; revert s; induction n as [|n IH]; intros s Hn.
  - destruct s; reflexivity.
  - destruct s as [|a s]; simpl in Hn; [lia|].
    simpl; rewrite IH by lia; reflexivity.
Qed.

Section RemoteMore.

Variable Slack : Type.
Variable RemoveReaction : string -> string -> slack.ItemRef -> Slack -> option error * Slack.
Variable AddReaction : string -> string -> slack.ItemRef -> Slack -> option error * Slack.
Variable getRooms : string -> Slack -> gmap string string.
Variable AuthTest : string -> Slack -> string + error.
Variable readFromSocketMode : slack.SocketClient -> slack.Bot -> slack.Bot * list Message.t.
Variable readFromEventsAPI : string -> string -> slack.Bot -> slack.Bot * list Message.t.
Variable MaxMessageTextLength : Z.
Variable MessageTimestamp : Z.

Local Abbreviation Reaction := (slack.Reaction Slack RemoveReaction AddReaction).
Local Abbreviation Read :=
  (slack.Read Slack getRooms AuthTest readFromSocketMode readFromEventsAPI).
Local Abbreviation truncate := (slack.truncate MaxMessageTextLength).
Local Abbreviation Send := (slack.Send MaxMessageTextLength MessageTimestamp).

Local Ltac not_in H := simpl in H; intuition discriminate.

(** X8: the Slack calls [Reaction] makes are, in this order, one removal
    if the rule has a RemoveReaction and one addition if the rule has a
    Reaction and no removal failed; it makes no other call and none
    twice. *)
Theorem X8_reaction_calls (c : slack.Client) (message : Message.t) (rule : Rule.t)
    (s : Slack) :
  let item := slack.NewRefToMessage (Message.ChannelID message) (Message.Timestamp message) in
  let removal := RemoveReaction (slack.Token c) (Rule.RemoveReaction rule) item s in
  runs.apiCalls (fst (Reaction c message rule s)) =
    (if strings.isEmpty (Rule.RemoveReaction rule) then []
     else [slack.CallRemoveReaction (slack.Token c) (Rule.RemoveReaction rule) item]) ++
    (if strings.isEmpty (Rule.Reaction rule) then []
     else if strings.isEmpty (Rule.RemoveReaction rule)
          then [slack.CallAddReaction (slack.Token c) (Rule.Reaction rule) item]
          else match fst removal with
               | None => [slack.CallAddReaction (slack.Token c) (Rule.Reaction rule) item]
               | Some _ => []
               end).
Proof.
  cbv zeta; unfold slack.Reaction, slack.addReaction.
  destruct (strings.isEmpty (Rule.RemoveReaction rule));
    destruct (strings.isEmpty (Rule.Reaction rule)); simpl.
  - reflexivity.
  - destruct (AddReaction _ _ _ s) as [[e|] s']; reflexivity.
  - destruct (RemoveReaction _ _ _ s) as [[e|] s']; reflexivity.
  - destruct (RemoveReaction _ _ _ s) as [[e|] s']; simpl; [reflexivity|].
    destruct (AddReaction _ _ _ s') as [[e|] s'']; reflexivity.
Qed.

(** X9: [Reaction] writes one log line for each call it makes, and a line
    at error level exactly when one of these calls failed. *)
Theorem X9_reaction_logs (c : slack.Client) (message : Message.t) (rule : Rule.t)
    (s : Slack) :
  let item := slack.NewRefToMessage (Message.ChannelID message) (Message.Timestamp message) in
  let removal := RemoveReaction (slack.Token c) (Rule.RemoveReaction rule) item s in
  let before_add := if strings.isEmpty (Rule.RemoveReaction rule) then s else snd removal in
  let addition := AddReaction (slack.Token c) (Rule.Reaction rule) item before_add in
  let evs := fst (Reaction c message rule s) in
  length evs = (2 * length (runs.apiCalls evs))%nat /\
  ((exists text, In (slack.Log slack.ErrorLevel text) evs) <->
   (Rule.RemoveReaction rule <> "" /\ fst removal <> None) \/
   (Rule.Reaction rule <> "" /\
    (Rule.RemoveReaction rule = "" \/ fst removal = None) /\ fst addition <> None)).
Proof.
  cbv zeta; unfold slack.Reaction, slack.addReaction.
  destruct (strings.isEmpty (Rule.RemoveReaction rule)) eqn:Hrm;
    [apply isEmpty_true in Hrm|apply isEmpty_false in Hrm];
    destruct (strings.isEmpty (Rule.Reaction rule)) eqn:Hadd;
    [apply isEmpty_true in Hadd|apply isEmpty_false in Hadd
    |apply isEmpty_true in Hadd|apply isEmpty_false in Hadd].
  - simpl; split; [reflexivity|].
    split; [intros [text []]|intros [[? _]|[? _]]; congruence].
  - destruct (AddReaction _ _ _ s) as [[e|] s'] eqn:Ha; simpl;
      (split; [reflexivity|]); split.
    + intros _; right; split; [auto|]; split; [auto|discriminate].
    + intros _; eexists; right; left; reflexivity.
    + intros [text [H|[H|[]]]]; discriminate H.
    + intros [[? _]|(_ & _ & ?)]; congruence.
  - destruct (RemoveReaction _ _ _ s) as [[e|] s'] eqn:Hr; simpl;
      (split; [reflexivity|]); split.
    + intros _; left; split; [auto|discriminate].
    + intros _; eexists; right; left; reflexivity.
    + intros [text [H|[H|[]]]]; discriminate H.
    + intros [[_ ?]|[? _]]; congruence.
  - destruct (RemoveReaction _ _ _ s) as [[e|] s'] eqn:Hr; simpl.
    + split; [reflexivity|]; split.
      * intros _; left; split; [auto|discriminate].
      * intros _; eexists; right; left; reflexivity.
    + destruct (AddReaction _ _ _ s') as [[e|] s''] eqn:Ha; simpl;
        (split; [reflexivity|]); split.
      * intros _; right; split; [auto|]; split; [auto|discriminate].
      * intros _; eexists; right; right; right; left; reflexivity.
      * intros [text [H|[H|[H|[H|[]]]]]]; discriminate H.
      * intros [[_ ?]|(_ & _ & ?)]; congruence.
Qed.

(** X10: [Read] starts the socket-mode reader exactly when the
    authentication test succeeds and the client has an app token, and the
    Events API reader exactly when the test succeeds, there is no app token
    and there is a signing secret; so never both. *)
Theorem X10_read_transport (c : slack.Client) (bot : slack.Bot) (s : Slack) :
  let evs := slack.events (Read c bot s) in
  ((exists sm b, In (slack.CallReadFromSocketMode sm b) evs) <->
   (exists UserID, AuthTest (slack.Token c) s = inl UserID) /\ slack.AppToken c <> "") /\
  ((exists token secret b, In (slack.CallReadFromEventsAPI token secret b) evs) <->
   (exists UserID, AuthTest (slack.Token c) s = inl UserID) /\
   slack.AppToken c = "" /\ slack.SigningSecret c <> "").
Proof.
  cbv zeta; unfold slack.Read, slack.notConfigured.
  destruct (AuthTest (slack.Token c) s) as [UserID|e].
  2:{ simpl; split; split.
      - intros (sm & b & H); not_in H.
      - intros [[? [=]] _].
      - intros (t & sec & b & H); not_in H.
      - intros [[? [=]] _]. }
  destruct (strings.isEmpty (slack.AppToken c)) eqn:Happ;
    [apply isEmpty_true in Happ|apply isEmpty_false in Happ]; simpl.
  - destruct (strings.isEmpty (slack.SigningSecret c)) eqn:Hsec;
      [apply isEmpty_true in Hsec|apply isEmpty_false in Hsec]; simpl.
    + split; split.
      * destruct (negb _); intros (sm & b & H); not_in H.
      * intros [_ ?]; congruence.
      * destruct (negb _); intros (t & sec & b & H); not_in H.
      * intros (_ & _ & ?); congruence.
    + destruct (readFromEventsAPI _ _ _) as [bot' msgs]; simpl; split; split.
      * intros (sm & b & H); not_in H.
      * intros [_ ?]; congruence.
      * intros _; split; [eauto|auto].
      * intros _; do 3 eexists; right; right; left; reflexivity.
  - destruct (readFromSocketMode _ _) as [bot' msgs]; simpl; split; split.
    + intros _; split; [eauto|auto].
    + intros _; do 2 eexists; right; right; left; reflexivity.
    + intros (t & sec & b & H); not_in H.
    + intros (_ & ? & _); congruence.
Qed.

(** X11: [Read] reports that the bot is not set up (the error line
    "cli mode is disabled and tokens are not set up correctly to run the
    bot") exactly when the authentication test succeeds, the client has
    neither app token nor signing secret and the bot is not in CLI mode;
    after a failed test the missing tokens go unreported. *)
Theorem X11_read_not_configured (c : slack.Client) (bot : slack.Bot) (s : Slack) :
  In (slack.Log slack.ErrorLevel
        "cli mode is disabled and tokens are not set up correctly to run the bot")
     (slack.events (Read c bot s)) <->
  (exists UserID, AuthTest (slack.Token c) s = inl UserID) /\
  slack.AppToken c = "" /\ slack.SigningSecret c = "" /\ slack.CLI bot = false.
Proof.
  unfold slack.Read, slack.notConfigured.
  destruct (AuthTest (slack.Token c) s) as [UserID|e].
  2:{ simpl; split; [intros H; not_in H|intros [[? [=]] _]]. }
  destruct (strings.isEmpty (slack.AppToken c)) eqn:Happ;
    [apply isEmpty_true in Happ|apply isEmpty_false in Happ]; simpl.
  - destruct (strings.isEmpty (slack.SigningSecret c)) eqn:Hsec;
      [apply isEmpty_true in Hsec|apply isEmpty_false in Hsec]; simpl.
    + destruct (slack.CLI bot); simpl; split.
      * intros H; not_in H.
      * intros (_ & _ & _ & ?); congruence.
      * intros _; split; [eauto|auto].
      * intros _; right; right; left; reflexivity.
    + destruct (readFromEventsAPI _ _ _) as [bot' msgs]; simpl; split.
      * intros H; not_in H.
      * intros (_ & _ & ? & _); congruence.
  - destruct (readFromSocketMode _ _) as [bot' msgs]; simpl; split.
    + intros H; not_in H.
    + intros (_ & ? & _); congruence.
Qed.

End RemoteMore.

Section SendMore.

Variable MaxMessageTextLength : Z.
Variable MessageTimestamp : Z.

Local Abbreviation truncate := (slack.truncate MaxMessageTextLength).
Local Abbreviation Send := (slack.Send MaxMessageTextLength MessageTimestamp).

(** X12: a message of one of the three types is handed to [send] once,
    with the client's token; it carries the time of the call as EndTime and
    the possibly shortened Output, and its ID, ChannelID, Timestamp, Type
    and Vars are those it came with. *)
Theorem X12_send_known_type (c : slack.Client) (message : Message.t) :
  Message.Type_ message <> MsgTypeUnknown ->
  exists m,
    Send c message =
      [slack.Log slack.DebugLevel ("sending message '" +:+ Message.ID message +:+ "'");
       slack.CallSend (slack.Token c) m] /\
    Message.EndTime m = MessageTimestamp /\
    Message.Output m = truncate (Message.Output message) /\
    Message.ID m = Message.ID message /\
    Message.ChannelID m = Message.ChannelID message /\
    Message.Timestamp m = Message.Timestamp message /\
    Message.Type_ m = Message.Type_ message /\
    Message.Vars m = Message.Vars message.
Proof.
  intros Hknown; eexists; split.
  - unfold slack.Send; simpl; destruct (Message.Type_ message);
      [congruence|reflexivity..].
  - simpl; repeat split.
Qed.

(** X13: no message is handed to [send] with an Output longer than the
    limit, and sending such a message again shortens nothing more. *)
Theorem X13_send_within_limit (c : slack.Client) (message : Message.t)
    (token : string) (m : Message.t) :
  3 <= MaxMessageTextLength ->
  In (slack.CallSend token m) (Send c message) ->
  Z.of_nat (String.length (Message.Output m)) <= MaxMessageTextLength /\
  (forall c' token' m', In (slack.CallSend token' m') (Send c' m) ->
                        Message.Output m' = Message.Output m).
Proof.
  intros Hmax Hin.
  assert (Hlen : Z.of_nat (String.length (Message.Output m)) <= MaxMessageTextLength).
  { apply Send_transmits in Hin as [_ ->]; simpl.
    destruct (Z_gt_le_dec (Z.of_nat (String.length (Message.Output message)))
                MaxMessageTextLength) as [Hlong|Hshort].
    - destruct (truncate_long MaxMessageTextLength _ Hmax Hlong) as (_ & _ & H); lia.
    - rewrite truncate_short; assumption. }
  split; [exact Hlen|].
  intros c' token' m' [_ ->]%Send_transmits; simpl.
  apply truncate_short; exact Hlen.
Qed.

(** X14: shortening never touches the first (limit - 3) bytes: the Output
    handed to [send] and the Output given to [Send] agree on them. *)
Theorem X14_send_keeps_head (c : slack.Client) (message : Message.t)
    (token : string) (m : Message.t) :
  3 <= MaxMessageTextLength ->
  In (slack.CallSend token m) (Send c message) ->
  strings.prefix (Z.to_nat (MaxMessageTextLength - 3)) (Message.Output m) =
  strings.prefix (Z.to_nat (MaxMessageTextLength - 3)) (Message.Output message).
Proof.
  intros Hmax [_ ->]%Send_transmits; simpl.
  destruct (Z_gt_le_dec (Z.of_nat (String.length (Message.Output message)))
              MaxMessageTextLength) as [Hlong|Hshort].
  - destruct (truncate_long MaxMessageTextLength _ Hmax Hlong) as (-> & Hp & _).
    rewrite prefix_append by lia.
    apply prefix_prefix; lia.
  - rewrite truncate_short by assumption; reflexivity.
Qed.

End SendMore.

Section InteractiveComponentsMore.

Variable isValidPath : string -> bool.

Local Abbreviation InteractiveComponents := (slack.InteractiveComponents isValidPath).
Local Abbreviation activate := (runs.activate isValidPath).
Local Abbreviation activations := (runs.activations isValidPath).

Local Ltac not_in H := simpl in H; intuition discriminate.

(** X15: [InteractiveComponents] changes the package state exactly when
    the interactions flag is set, the signing secret and the callback path
    are not empty and no router exists yet. *)
Theorem X15_state_changes (c : slack.Client) (message : Message.t) (rule : Rule.t)
    (bot : slack.Bot) (p : slack.Package) :
  fst (InteractiveComponents c message rule bot p) <> p <->
  slack.InteractiveComponents_ bot = true /\
  slack.SigningSecret c <> "" /\
  slack.SlackInteractionsCallbackPath bot <> "" /\
  slack.interactionsRouter p = None.
Proof.
  unfold slack.InteractiveComponents.
  destruct (slack.InteractiveComponents_ bot); simpl;
    [|split; [congruence|intros [? _]; discriminate]].
  destruct (strings.isEmpty (slack.SigningSecret c)) eqn:Hsec;
    [apply isEmpty_true in Hsec|apply isEmpty_false in Hsec]; simpl;
    [split; [congruence|intros (_ & ? & _); congruence]|].
  destruct (strings.isEmpty (slack.SlackInteractionsCallbackPath bot)) eqn:Hpath;
    [apply isEmpty_true in Hpath|apply isEmpty_false in Hpath]; simpl;
    [split; [congruence|intros (_ & _ & ? & _); congruence]|].
  destruct (slack.interactionsRouter p) as [r|] eqn:Hr; simpl;
    [split; [congruence|intros (_ & _ & _ & ?); congruence]|].
  split; [auto|intros _].
  destruct (isValidPath _); simpl; intros Heq;
    apply (f_equal slack.interactionsRouter) in Heq; simpl in Heq; congruence.
Qed.

(** X16: the rule is processed exactly when the flag is set, the signing
    secret and the callback path are not empty, and either a router exists
    already or the callback path is valid; it is then processed once, with
    the rule and message of the call. *)
Theorem X16_rule_processed (c : slack.Client) (message : Message.t) (rule : Rule.t)
    (bot : slack.Bot) (p : slack.Package) :
  let evs := snd (InteractiveComponents c message rule bot p) in
  ((exists r m, In (slack.CallProcessInteractiveComponentRule r m) evs) <->
   slack.InteractiveComponents_ bot = true /\
   slack.SigningSecret c <> "" /\
   slack.SlackInteractionsCallbackPath bot <> "" /\
   (slack.interactionsRouter p <> None \/
    isValidPath (slack.SlackInteractionsCallbackPath bot) = true)) /\
  (forall r m, In (slack.CallProcessInteractiveComponentRule r m) evs ->
               r = rule /\ m = message).
Proof.
  cbv zeta; unfold slack.InteractiveComponents.
  destruct (slack.InteractiveComponents_ bot); simpl.
  2:{ split; [split|]; [intros (r & m & [])|intros [? _]; discriminate|intros r m []]. }
  destruct (strings.isEmpty (slack.SigningSecret c)) eqn:Hsec;
    [apply isEmpty_true in Hsec|apply isEmpty_false in Hsec]; simpl.
  { split; [split|]; [intros (r & m & [])|intros (_ & ? & _); congruence|intros r m []]. }
  destruct (strings.isEmpty (slack.SlackInteractionsCallbackPath bot)) eqn:Hpath;
    [apply isEmpty_true in Hpath|apply isEmpty_false in Hpath]; simpl.
  { split; [split|].
    - intros (r & m & H); not_in H.
    - intros (_ & _ & ? & _); congruence.
    - intros r m H; not_in H. }
  destruct (slack.interactionsRouter p) as [router|] eqn:Hr; simpl.
  { split; [split|].
    - intros _; repeat split; auto; left; discriminate.
    - intros _; do 2 eexists; left; reflexivity.
    - intros r m [[= <- <-]|[]]; split; reflexivity. }
  destruct (isValidPath (slack.SlackInteractionsCallbackPath bot)) eqn:Hvalid; simpl.
  - split; [split|].
    + intros _; repeat split; auto.
    + intros _; do 2 eexists; right; right; left; reflexivity.
    + intros r m [H|[H|[[= <- <-]|[]]]]; try discriminate H; split; reflexivity.
  - split; [split|].
    + intros (r & m & H); not_in H.
    + intros (_ & _ & _ & [?|?]); congruence.
    + intros r m H; not_in H.
Qed.

(** X17: what [InteractiveComponents] does depends on the client through
    its signing secret only: the listener port, the token and the app token
    play no part, and the one address ever listened on is ":4000". *)
Theorem X17_listener_port_unused (c c' : slack.Client) (message : Message.t)
    (rule : Rule.t) (bot : slack.Bot) (p : slack.Package) :
  slack.SigningSecret c = slack.SigningSecret c' ->
  InteractiveComponents c message rule bot p =
  InteractiveComponents c' message rule bot p /\
  (forall addr, In (slack.GoListenAndServe addr)
                  (snd (InteractiveComponents c message rule bot p)) ->
                addr = ":4000").
Proof.
  intros Hsec; split.
  - unfold slack.InteractiveComponents; rewrite Hsec; reflexivity.
  - intros addr; unfold slack.InteractiveComponents.
    destruct (_ && _); [|intros []].
    destruct (strings.isEmpty _); [intros H; not_in H|].
    destruct (slack.interactionsRouter p); [intros H; not_in H|].
    destruct (negb _); simpl; [intros H; not_in H|].
    intros [[= <-]|H]; [reflexivity|not_in H].
Qed.

(** One activation keeps the package state among the reachable ones. *)
Lemma activate_reachable (a : runs.Activation) (p : slack.Package) :
  runs.reachable p -> runs.reachable (fst (activate a p)).
Proof.
  intros Hp; unfold runs.activate, slack.InteractiveComponents.
  destruct (_ && _); [|exact Hp].
  destruct (strings.isEmpty _); [exact Hp|].
  destruct (slack.interactionsRouter p) as [r|] eqn:Hr; [exact Hp|].
  destruct Hp as [[_ Hl]|[[Hr' _]|(cb & Hr' & _)]]; try congruence.
  destruct (isValidPath _); simpl.
  - right; right; eexists; split; [reflexivity|]; split; [reflexivity|].
    unfold slack.listen, slack.setRouter; simpl; rewrite Hl; reflexivity.
  - right; left; split; [reflexivity|exact Hl].
Qed.

(** X18: after any number of activations of any kind, starting from the
    state of a fresh process, there is at most one listener, on ":4000",
    and it serves the health route and one POST route; without a listener
    the router is absent or holds the health route alone. *)
Theorem X18_at_most_one_listener (calls : list runs.Activation) :
  let p := fst (activations calls slack.initial) in
  runs.reachable p /\ (length (slack.listeners p) <= 1)%nat.
Proof.
  cbv zeta.
  assert (Hgen : forall p, runs.reachable p -> runs.reachable (fst (activations calls p))).
  { induction calls as [|a rest IH]; intros p Hp; simpl; [exact Hp|].
    pose proof (activate_reachable a p Hp) as H1.
    destruct (activate a p) as [p1 evs1]; simpl in H1.
    specialize (IH p1 H1).
    destruct (runs.activations isValidPath rest p1) as [p2 evs2]; exact IH. }
  assert (Hr : runs.reachable (fst (activations calls slack.initial)))
    by (apply Hgen; left; split; reflexivity).
  split; [exact Hr|].
  destruct Hr as [[_ ->]|[[_ ->]|(cb & _ & _ & ->)]]; simpl; lia.
Qed.

(** X19: once the router variable is set, no sequence of activations
    changes the routes or the listeners or starts a server; so after a first
    activation that stopped at an invalid callback path, nothing ever
    listens. *)
Theorem X19_router_is_final (calls : list runs.Activation) (p : slack.Package) :
  slack.interactionsRouter p <> None ->
  fst (activations calls p) = p /\
  forall addr, ~ In (slack.GoListenAndServe addr) (snd (activations calls p)).
Proof.
  intros Hr; induction calls as [|a rest IH]; simpl; [split; [reflexivity|intros addr []]|].
  destruct (InteractiveComponents_initialized isValidPath (runs.client a) (runs.message a)
              (runs.rule a) (runs.bot a) p Hr) as [Hsame Hnone].
  fold (activate a p) in Hsame, Hnone.
  destruct (activate a p) as [p1 evs1]; simpl in Hsame, Hnone; subst p1.
  destruct (runs.activations isValidPath rest p) as [p2 evs2]; simpl in *.
  destruct IH as [-> IH]; split; [reflexivity|].
  intros addr [H|H]%in_app_or; [exact (Hnone addr H)|exact (IH addr H)].
Qed.

End InteractiveComponentsMore.

(** * The further properties on the sample machine *)

Lemma X1_substitution_failure_witness :
  handlers.ScriptExec sample.failingSubstitution sample.oneToken sample.machine
    (sample.action "hello ${name}" 5) sample.message =
    Some ({| ScriptResponse.Status := 1; ScriptResponse.Output := "" |},
          Some (errorString "variable 'name' was not found")) /\
  handlers.observed sample.failingSubstitution sample.oneToken sample.machine
    (sample.action "hello ${name}" 5) sample.message = None.
Proof.
  apply (X1_substitution_failure sample.failingSubstitution sample.oneToken sample.machine
           (sample.action "hello ${name}" 5) sample.message); reflexivity.
Defined.

Lemma X2_deadline_witness :
  exists cmd bin0 rest,
    sample.noSubstitution "hello" ∅ = (cmd, None) /\
    sample.oneToken cmd = bin0 :: rest /\
    sample.machine 20000000000 "hello" [] = sample.machine 20000000000 bin0 rest.
Proof.
  apply (X2_deadline sample.noSubstitution sample.oneToken sample.machine
           (sample.action "hello" 0) sample.message
           (sample.machine 20000000000 "hello" [])); [simpl; lia|reflexivity].
Defined.

Lemma X3_deadline_wraps_witness :
  exists bin0 rest,
    sample.machine (handlers.seconds 9223372037) "hello" [] =
      sample.machine (9223372037 * 1000000000 - 2 ^ 64) bin0 rest /\
    9223372037 * 1000000000 - 2 ^ 64 < 0.
Proof.
  apply (X3_deadline_wraps sample.noSubstitution sample.oneToken sample.machine
           (sample.action "hello" 9223372037) sample.message
           (sample.machine (handlers.seconds 9223372037) "hello" []));
    [simpl; lia|reflexivity].
Defined.




Lemma X12_send_known_type_witness :
  exists m,
    sample.Send (sample.client "xoxb-valid") (sample.typed MsgTypeDirect "hi") =
      [slack.Log slack.DebugLevel "sending message 'm2'";
       slack.CallSend "xoxb-valid" m] /\
    Message.EndTime m = 1700000000 /\ Message.Output m = "hi".
Proof.
  destruct (X12_send_known_type 4000 1700000000 (sample.client "xoxb-valid")
              (sample.typed MsgTypeDirect "hi")) as (m & Hsend & Hend & Hout & _);
    [discriminate|].
  exists m; split; [exact Hsend|]; split; [exact Hend|exact Hout].
Defined.

Lemma X13_send_within_limit_witness :
  let sent := slack.setEndTime 7 (slack.setOutput "hello, ..."
                (sample.typed MsgTypeChannel "hello, wide world")) in
  In (slack.CallSend "xoxb-valid" sent)
     (slack.Send 10 7 (sample.client "xoxb-valid")
        (sample.typed MsgTypeChannel "hello, wide world")) /\
  Z.of_nat (String.length (Message.Output sent)) <= 10.
Proof.
  cbv zeta.
  assert (Hin : In (slack.CallSend "xoxb-valid"
                      (slack.setEndTime 7 (slack.setOutput "hello, ..."
                         (sample.typed MsgTypeChannel "hello, wide world"))))
                   (slack.Send 10 7 (sample.client "xoxb-valid")
                      (sample.typed MsgTypeChannel "hello, wide world")))
    by (right; left; reflexivity).
  split; [exact Hin|].
  apply (X13_send_within_limit 10 7 (sample.client "xoxb-valid")
           (sample.typed MsgTypeChannel "hello, wide world") "xoxb-valid" _
           ltac:(lia) Hin).
Defined.

Lemma X14_send_keeps_head_witness :
  strings.prefix 7 "hello, ..." = strings.prefix 7 "hello, wide world".
Proof.
  apply (X14_send_keeps_head 10 7 (sample.client "xoxb-valid")
           (sample.typed MsgTypeChannel "hello, wide world") "xoxb-valid"
           (slack.setEndTime 7 (slack.setOutput "hello, ..."
              (sample.typed MsgTypeChannel "hello, wide world"))));
    [lia|right; left; reflexivity].
Defined.

Lemma X17_listener_port_unused_witness :
  sample.InteractiveComponents (sample.client "xoxb-valid") sample.message
    (sample.rule "" "eyes") sample.bot slack.initial =
  sample.InteractiveComponents
    {| slack.ListenerPort := "8080"; slack.Token := "xoxb-other";
       slack.AppToken := ""; slack.SigningSecret := "8f742231b10e" |}
    sample.message (sample.rule "" "eyes") sample.bot slack.initial.
Proof.
  apply (X17_listener_port_unused sample.isValidPath (sample.client "xoxb-valid")
           {| slack.ListenerPort := "8080"; slack.Token := "xoxb-other";
              slack.AppToken := ""; slack.SigningSecret := "8f742231b10e" |}
           sample.message (sample.rule "" "eyes") sample.bot slack.initial);
    reflexivity.
Defined.

Lemma X19_router_is_final_witness :
  slack.interactionsRouter
    (fst (runs.activate sample.isValidPath runs.firstBadPath slack.initial)) <> None /\
  slack.listeners
    (fst (runs.activations sample.isValidPath [runs.first; runs.first]
            (fst (runs.activate sample.isValidPath runs.firstBadPath slack.initial)))) = [].
Proof.
  assert (Hr : slack.interactionsRouter
                 (fst (runs.activate sample.isValidPath runs.firstBadPath slack.initial))
               <> None) by discriminate.
  split; [exact Hr|].
  destruct (X19_router_is_final sample.isValidPath [runs.first; runs.first] _ Hr)
    as [-> _]; reflexivity.
Defined.
